(** * NASLib: optimizer contract and utilities

  A shallow embedding of
    - [naslib/optimizers/core/metaclasses.py]  (class [MetaOptimizer]),
    - [naslib/utils/utils.py]                  ([get_train_val_loaders],
      [count_parameters_in_MB], [cross_validation], [generate_kfold],
      [NamedAverageMeter], [AverageMeter]),
  together with the properties the specification states about them.

  Python objects live in a store indexed by references, so that two names
  bound to the same object are the same reference; a method is a function
  from the store to an outcome and a new store.  Exceptions are the [Raise]
  outcome. *)

From Stdlib Require Import ZArith QArith Qround List Ascii Sorted Lia.
From stdpp Require Import gmap strings list.

Local Open Scope Z_scope.

(** ** Python outcomes *)

Module Python.

(** The built-in exceptions the modelled code raises. *)
Inductive exn : Type :=
| NotImplementedError
| AssertionError
| ValueError (msg : string)
| IndexError
| ZeroDivisionError
| UnboundLocalError (var : string)
| AttributeError (attr : string)
| Exception (msg : string).

Inductive result (A : Type) : Type :=
| Return (a : A)
| Raise (e : exn).
Arguments Return {A} a.
Arguments Raise {A} e.

Definition bind {A B} (r : result A) (k : A -> result B) : result B :=
  match r with
  | Return a => k a
  | Raise e => Raise e
  end.

#[global] Instance result_ret : MRet result := fun A a => Return a.
#[global] Instance result_bind : MBind result := fun A B k r => bind r k.

(** Values a method hands back to its caller. *)
Inductive value : Type :=
| VNone
| VBool (b : bool)
| VInt (z : Z)
| VNum (q : Q)
| VStr (s : string)
| VRef (r : nat).

(** [l[j]] on a sequence: a negative index counts from the end, an index
    outside the sequence raises [IndexError]. *)
Definition py_index {A} (l : list A) (j : Z) : result A :=
  let len := Z.of_nat (length l) in
  let j' := if j <? 0 then j + len else j in
  if (j' <? 0) || (len <=? j') then Raise IndexError
  else match l !! Z.to_nat j' with
       | Some a => Return a
       | None => Raise IndexError
       end.

(** Normalisation of one bound of a slice over a sequence of length
    [len]: negative bounds count from the end, and the result is
    clipped to [0 .. len]. *)
Definition slice_bound (len b : Z) : Z :=
  if b <? 0 then Z.max (b + len) 0 else Z.min b len.

(** [l[a:b]] *)
Definition py_slice {A} (l : list A) (a b : Z) : list A :=
  let len := Z.of_nat (length l) in
  let a' := slice_bound len a in
  let b' := slice_bound len b in
  take (Z.to_nat (b' - a')) (drop (Z.to_nat a') l).

(** [l[a:]] *)
Definition py_slice_from {A} (l : list A) (a : Z) : list A :=
  drop (Z.to_nat (slice_bound (Z.of_nat (length l)) a)) l.

(** [l[:b]] *)
Definition py_slice_to {A} (l : list A) (b : Z) : list A :=
  take (Z.to_nat (slice_bound (Z.of_nat (length l)) b)) l.

(** [range(n)] *)
Definition range (n : Z) : list Z := seqZ 0 n.

(** [[f(x) for x in l]] where [f] may raise: elements are evaluated from
    left to right and the first exception ends the comprehension. *)
Fixpoint comprehension {A B} (f : A -> result B) (l : list A) : result (list B) :=
  match l with
  | [] => Return []
  | x :: xs =>
      match f x with
      | Raise e => Raise e
      | Return y =>
          match comprehension f xs with
          | Raise e => Raise e
          | Return ys => Return (y :: ys)
          end
      end
  end.

End Python.
Import Python.

(** ** Stateful calls

    A call runs against a state [W] (the object store, or the world outside
    the interpreter) and ends with an outcome and the state it leaves. *)

Module Call.

Definition M (W A : Type) : Type := W -> result A * W.

Definition ret {W A} (a : A) : M W A := fun w => (Return a, w).

Definition raise {W A} (e : exn) : M W A := fun w => (Raise e, w).

Definition bind {W A B} (m : M W A) (k : A -> M W B) : M W B :=
  fun w =>
    match m w with
    | (Return a, w') => k a w'
    | (Raise e, w') => (Raise e, w')
    end.

End Call.

Declare Scope call_scope.
Delimit Scope call_scope with call.
Notation "x <~ m ;; k" := (Call.bind m (fun x => k))
  (at level 100, m at next level, right associativity) : call_scope.
Notation "m ;;; k" := (Call.bind m (fun _ => k))
  (at level 100, right associativity) : call_scope.

(** ** The object store *)

Module Store.
Section WithGraph.
(** The search-space graph class is an external collaborator; its values
    are left abstract. *)
Context {Graph : Type}.

Inductive object : Type :=
| Instance (attrs : gmap string value)
| GraphObj (g : Graph).

(** [obj.name = v] on an optimizer instance. *)
Definition setattr (name : string) (v : value) (o : object) : object :=
  match o with
  | Instance attrs => Instance (<[name := v]> attrs)
  | GraphObj g => GraphObj g
  end.

(** A method of the graph applied through a reference to it. *)
Definition on_graph (f : Graph -> Graph) (o : object) : object :=
  match o with
  | Instance attrs => Instance attrs
  | GraphObj g => GraphObj (f g)
  end.

(** [copy.deepcopy(obj)]: a reference no live object has, holding a copy
    that shares nothing with the original. *)
Definition deepcopy (o : object) : Call.M (gmap nat object) nat :=
  fun w => let r := fresh (dom w) in (Return r, <[r := o]> w).

End WithGraph.
Arguments object : clear implicits.
End Store.
Import Store.

(** ** [naslib/optimizers/core/metaclasses.py] *)

Module MetaOptimizer.
Section Base.
Context {Graph Scope Batch : Type}.

(** A method call on the store of optimizer and graph objects. *)
Definition call : Type := Call.M (gmap nat (object Graph)) value.

Definition step (self : nat) (data_train data_val : Batch) : call :=
  Call.raise NotImplementedError.

Definition adapt_search_space (self : nat) (search_space : nat)
    (scope : option Scope) : call :=
  Call.raise NotImplementedError.

Definition new_epoch (self : nat) (epoch : Z) : call :=
  Call.ret VNone.

Definition before_training (self : nat) : call :=
  Call.ret VNone.

Definition after_training (self : nat) : call :=
  Call.ret VNone.

Definition get_final_architecture (self : nat) : call :=
  Call.raise NotImplementedError.

(** The body is the docstring alone: control falls off the end of the
    function, which hands back [None]. *)
Definition get_op_optimizer (self : nat) : call :=
  Call.ret VNone.


End Base.
End MetaOptimizer.

(** ** The optimizer variants

    [Bananas], [OneShotNASOptimizer] and [RandomNASOptimizer] are imported by
    the runner from [naslib.optimizers]; their class bodies are in modules
    of the package that are not embedded here. *)

Module Variants.
Section Adapt.
Context {Graph Scope : Type}.

Inductive variant : Type := Bananas | OneShotNASOptimizer | RandomNASOptimizer.

(** What a variant requires of a search space, and the change it makes to
    the graph it works on ([search_space.update(...)] in the docstring of
    the base class). *)
Variable required_hooks : variant -> Graph -> bool.
Variable update : variant -> option Scope -> Graph -> Graph.

(** Modelled from the spec: the [adapt_search_space] overrides of the three
    optimizer variants, which are missing from the sources.  Section 4.1 and
    the docstring of [MetaOptimizer.adapt_search_space] give the pattern:
    the call fails when the search space lacks the hooks the variant needs;
    otherwise the variant deep-copies the search space, modifies the copy,
    and stores the modified copy on itself. *)
Definition adapt_search_space (v : variant) (self : nat) (search_space : nat)
    (scope : option Scope) : @MetaOptimizer.call Graph :=
  fun w =>
    match w !! search_space with
    | Some (GraphObj g) =>
        if required_hooks v g then
          (graph <~ deepcopy (GraphObj g) ;;
           (fun w1 => (Return VNone, alter (on_graph (update v scope)) graph w1)) ;;;
           (fun w2 => (Return VNone, alter (setattr "graph" (VRef graph)) self w2)))%call w
        else (Raise (Exception "search space lacks the required hooks"), w)
    | _ => (Raise (AttributeError "update"), w)
    end.

End Adapt.
End Variants.

(** ** [naslib/utils/utils.py] *)

Module Utils.

(** *** [get_train_val_loaders] *)

Record Config : Type := {
  data : string;
  dataset : string;
  seed : Z;
  train_portion : Q;
  batch_size : Z
}.

Section Loaders.
(** Datasets, transforms, samplers and loaders belong to torch and
    torchvision; the world [W] holds what building them reads and changes
    (files, downloads, the state of the random generators). *)
Context {W Dataset Transform Sampler Queue : Type}.

(** What a branch of the dispatch binds: [train_data], [test_data],
    [train_transform], [valid_transform]. *)
Definition loaded : Type := (Dataset * Dataset * option Transform * option Transform)%type.

(** The bodies of the thirteen branches, one field per branch in the order
    of the [if]/[elif] chain, and the library calls after the chain. *)
Record backend : Type := {
  load_cifar10 : Config -> Call.M W loaded;
  load_cifar100 : Config -> Call.M W loaded;
  load_svhn : Config -> Call.M W loaded;
  load_ImageNet16_120 : Config -> Call.M W loaded;
  load_scifar100 : Config -> Call.M W loaded;
  load_ninapro : Config -> Call.M W loaded;
  load_jigsaw : Config -> Call.M W loaded;
  load_class_object : Config -> Call.M W loaded;
  load_class_scene : Config -> Call.M W loaded;
  load_autoencoder : Config -> Call.M W loaded;
  load_segmentsemantic : Config -> Call.M W loaded;
  load_normal : Config -> Call.M W loaded;
  load_room_layout : Config -> Call.M W loaded;
  len : Dataset -> Z;
  SubsetRandomSampler : list Z -> Sampler;
  np_random_seed : Z -> Call.M W value;
  DataLoader : Dataset -> Z -> option Sampler -> value -> Call.M W Queue
}.

Variable B : backend.

(** The [if dataset == ... elif ... else raise ValueError] chain. *)
Definition select_dataset (config : Config) : Call.M W loaded :=
  let dataset := dataset config in
  if String.eqb dataset "cifar10" then load_cifar10 B config
  else if String.eqb dataset "cifar100" then load_cifar100 B config
  else if String.eqb dataset "svhn" then load_svhn B config
  else if String.eqb dataset "ImageNet16-120" then load_ImageNet16_120 B config
  else if String.eqb dataset "scifar100" then load_scifar100 B config
  else if String.eqb dataset "ninapro" then load_ninapro B config
  else if String.eqb dataset "jigsaw" then load_jigsaw B config
  else if String.eqb dataset "class_object" then load_class_object B config
  else if String.eqb dataset "class_scene" then load_class_scene B config
  else if String.eqb dataset "autoencoder" then load_autoencoder B config
  else if String.eqb dataset "segmentsemantic" then load_segmentsemantic B config
  else if String.eqb dataset "normal" then load_normal B config
  else if String.eqb dataset "room_layout" then load_room_layout B config
  else Call.raise (ValueError ("Unknown dataset: " ++ dataset)).

(** The three [DataLoader] constructions.  The arguments of each call are
    evaluated before the call, so [np.random.seed(...)] runs first and its
    result is what [worker_init_fn] receives. *)
Definition make_queues (config : Config) (l : loaded)
    : Call.M W (Queue * Queue * Queue * option Transform * option Transform) :=
  let '(train_data, test_data, train_transform, valid_transform) := l in
  let num_train := len B train_data in
  let indices := range num_train in
  let split := Qfloor (train_portion config * inject_Z num_train) in
  (init1 <~ np_random_seed B (seed config + 1) ;;
   train_queue <~ DataLoader B train_data (batch_size config)
     (Some (SubsetRandomSampler B (py_slice_to indices split))) init1 ;;
   init2 <~ np_random_seed B (seed config) ;;
   valid_queue <~ DataLoader B train_data (batch_size config)
     (Some (SubsetRandomSampler B (py_slice indices split num_train))) init2 ;;
   init3 <~ np_random_seed B (seed config) ;;
   test_queue <~ DataLoader B test_data (batch_size config) None init3 ;;
   Call.ret (train_queue, valid_queue, test_queue, train_transform, valid_transform))%call.

Definition get_train_val_loaders (config : Config)
    : Call.M W (Queue * Queue * Queue * option Transform * option Transform) :=
  (l <~ select_dataset config ;; make_queues config l)%call.

(** The dataset names the specification lists as recognized, and the
    branch each one stands for. *)
Definition recognized_datasets : list string :=
  ["cifar10"; "cifar100"; "svhn"; "ImageNet16-120"; "scifar100"; "ninapro";
   "jigsaw"; "class_object"; "class_scene"; "autoencoder"; "segmentsemantic";
   "normal"; "room_layout"]%string.

Definition branches : list (string * (Config -> Call.M W loaded)) :=
  [("cifar10", load_cifar10 B); ("cifar100", load_cifar100 B);
   ("svhn", load_svhn B); ("ImageNet16-120", load_ImageNet16_120 B);
   ("scifar100", load_scifar100 B); ("ninapro", load_ninapro B);
   ("jigsaw", load_jigsaw B); ("class_object", load_class_object B);
   ("class_scene", load_class_scene B); ("autoencoder", load_autoencoder B);
   ("segmentsemantic", load_segmentsemantic B); ("normal", load_normal B);
   ("room_layout", load_room_layout B)]%string.

End Loaders.

(** *** [count_parameters_in_MB] *)

(** [sub in s] on strings. *)
Fixpoint contains (sub s : string) : bool :=
  String.prefix sub s ||
  match s with
  | EmptyString => false
  | String _ rest => contains sub rest
  end.







(** *** [cross_validation] *)

Section CrossValidation.
(** Architectures [X], targets [Y], the array [Pred] a predictor answers
    with, scores [Score], and the state [P] of the predictor object, which
    [fit] changes. *)
Context {X Y Pred Score P : Type}.

(** The predictor and the numpy, scipy and sklearn calls of the loop. *)
Record toolkit : Type := {
  fit : P -> list X -> list Y -> result P;
  query : P -> list X -> result Pred;
  shape_len : Pred -> Z;
  np_mean_axis0 : Pred -> result Pred;
  np_round : Pred -> Z -> result Pred;
  abs_corrcoef : list Y -> Pred -> result Score;
  mean_abs_diff : Pred -> list Y -> result Score;
  mean_squared_error : list Y -> Pred -> result Score;
  spearmanr : list Y -> Pred -> result Score;
  kendalltau : list Y -> Pred -> result Score;
  np_mean : list Score -> result Score
}.

Variable T : toolkit.

(** The [if score_metric == ... elif ...] chain.  It has no [else]: under
    any other metric name [score_i] is never bound, and the [append] that
    reads it raises. *)
Definition score (score_metric : string) (yval_i : list Y) (ypred_i : Pred)
    : result Score :=
  if String.eqb score_metric "pearson" then abs_corrcoef T yval_i ypred_i
  else if String.eqb score_metric "mae" then mean_abs_diff T ypred_i yval_i
  else if String.eqb score_metric "rmse" then mean_squared_error T yval_i ypred_i
  else if String.eqb score_metric "spearman" then spearmanr T yval_i ypred_i
  else if String.eqb score_metric "kendalltau" then kendalltau T yval_i ypred_i
  else if String.eqb score_metric "kt_2dec" then
    r ← np_round T ypred_i 2; kendalltau T yval_i r
  else if String.eqb score_metric "kt_1dec" then
    r ← np_round T ypred_i 1; kendalltau T yval_i r
  else Raise (UnboundLocalError "score_i").

(** One pass of the body of the [for] loop: the predictor after [fit] and
    the score of the split. *)
Definition cross_validation_split (xtrain : list X) (ytrain : list Y)
    (predictor : P) (score_metric : string)
    (train_indices validation_indices : list Z) : result (P * Score) :=
  xtrain_i ← comprehension (py_index xtrain) train_indices;
  ytrain_i ← comprehension (py_index ytrain) train_indices;
  xval_i ← comprehension (py_index xtrain) train_indices;
  yval_i ← comprehension (py_index ytrain) train_indices;
  predictor' ← fit T predictor xtrain_i ytrain_i;
  ypred_i ← query T predictor' xval_i;
  ypred_i' ← (if 1 <? shape_len T ypred_i then np_mean_axis0 T ypred_i
              else Return ypred_i);
  score_i ← score score_metric yval_i ypred_i';
  Return (predictor', score_i).

(** The [for] loop over [split_indices], with [validation_score] as the
    list built so far. *)
Fixpoint cross_validation_loop (xtrain : list X) (ytrain : list Y)
    (predictor : P) (score_metric : string)
    (split_indices : list (list Z * list Z)) (validation_score : list Score)
    : result (P * list Score) :=
  match split_indices with
  | [] => Return (predictor, validation_score)
  | (train_indices, validation_indices) :: rest =>
      match cross_validation_split xtrain ytrain predictor score_metric
              train_indices validation_indices with
      | Raise e => Raise e
      | Return (predictor', score_i) =>
          cross_validation_loop xtrain ytrain predictor' score_metric rest
            (validation_score ++ [score_i])
      end
  end.

(** The mean validation score, with the predictor as the calls left it. *)
Definition cross_validation (xtrain : list X) (ytrain : list Y)
    (predictor : P) (split_indices : list (list Z * list Z))
    (score_metric : string) : result (Score * P) :=
  r ← cross_validation_loop xtrain ytrain predictor score_metric split_indices [];
  m ← np_mean T (snd r);
  Return (m, fst r).

End CrossValidation.

(** *** [generate_kfold] *)

(** [np.concatenate] refuses an empty sequence of arrays. *)
Definition np_concatenate (arrays : list (list Z)) : result (list Z) :=
  match arrays with
  | [] => Raise (ValueError "need at least one array to concatenate")
  | _ => Return (concat arrays)
  end.

(** [[fold_indices[j] for j in range(k) if j != i]] *)
Definition training_folds (fold_indices : list (list Z)) (k i : Z)
    : result (list (list Z)) :=
  comprehension (py_index fold_indices)
    (List.filter (fun j => negb (j =? i)) (range k)).

Definition generate_kfold (n k : Z) : result (list (list Z * list Z)) :=
  if negb (2 <=? k) then Raise AssertionError
  else
    let indices := range n in
    let fold_size := n / k in
    let fold_indices :=
      map (fun i => py_slice indices (i * fold_size) ((i + 1) * fold_size))
        (range (k - 1))
      ++ [py_slice_from indices ((k - 1) * fold_size)] in
    comprehension
      (fun i =>
         training_indices ← training_folds fold_indices k i;
         validation_indices ← py_index fold_indices i;
         train ← np_concatenate training_indices;
         Return (train, validation_indices))
      (range k).

(** The [j]-th fold as an interval of indices: [n // k] indices from
    [j * (n // k)] on for the first [k - 1] folds, and all that is left
    for the last one. *)
Definition fold_interval (n k j : Z) : list Z :=
  if j <? k - 1 then seqZ (j * (n / k)) (n / k)
  else seqZ ((k - 1) * (n / k)) (n - (k - 1) * (n / k)).

(** *** [NamedAverageMeter] and [AverageMeter]

    The numbers a meter holds are Python numbers; they are kept as exact
    rationals, and the weight [n] of an update as an integer.  [x / 0]
    raises [ZeroDivisionError], and the assignment of [avg] it stands in
    does not happen. *)

Definition true_div (x : Q) (d : Z) : result Q :=
  if d =? 0 then Raise ZeroDivisionError else Return (x / inject_Z d)%Q.

Module NamedAverageMeter.

Record t : Type := {
  name : string;
  fmt : string;
  val : Q;
  avg : Q;
  sum : Q;
  count : Z
}.

Definition reset (self : t) : t :=
  {| name := name self; fmt := fmt self;
     val := 0; avg := 0; sum := 0; count := 0 |}.

(** [__init__] *)
Definition init (name fmt : string) : t :=
  reset {| name := name; fmt := fmt; val := 0; avg := 0; sum := 0; count := 0 |}.

(** The outcome of the call and the object as the call leaves it. *)
Definition update (self : t) (v : Q) (n : Z) : result value * t :=
  let self1 :=
    {| name := name self; fmt := fmt self; val := v; avg := avg self;
       sum := (sum self + v * inject_Z n)%Q; count := count self + n |} in
  match true_div (sum self1) (count self1) with
  | Raise e => (Raise e, self1)
  | Return a =>
      (Return VNone,
       {| name := name self1; fmt := fmt self1; val := val self1; avg := a;
          sum := sum self1; count := count self1 |})
  end.

(** A sequence of [update(val, n)] calls; an exception ends it. *)
Fixpoint updates (self : t) (calls : list (Q * Z)) : result value * t :=
  match calls with
  | [] => (Return VNone, self)
  | (v, n) :: rest =>
      match update self v n with
      | (Return _, self') => updates self' rest
      | (Raise e, self') => (Raise e, self')
      end
  end.

End NamedAverageMeter.

Module AverageMeter.

Record t : Type := {
  avg : Q;
  sum : Q;
  cnt : Z
}.

Definition reset (self : t) : t := {| avg := 0; sum := 0; cnt := 0 |}.

(** [__init__] *)
Definition init : t := reset {| avg := 0; sum := 0; cnt := 0 |}.

Definition update (self : t) (v : Q) (n : Z) : result value * t :=
  let self1 :=
    {| avg := avg self; sum := (sum self + v * inject_Z n)%Q;
       cnt := cnt self + n |} in
  match true_div (sum self1) (cnt self1) with
  | Raise e => (Raise e, self1)
  | Return a => (Return VNone, {| avg := a; sum := sum self1; cnt := cnt self1 |})
  end.

Fixpoint updates (self : t) (calls : list (Q * Z)) : result value * t :=
  match calls with
  | [] => (Return VNone, self)
  | (v, n) :: rest =>
      match update self v n with
      | (Return _, self') => updates self' rest
      | (Raise e, self') => (Raise e, self')
      end
  end.

End AverageMeter.



End Utils.

(** ** Concrete collaborators

    Small stand-ins for the libraries the code calls, on which the
    definitions above can be run. *)

Module Instances.
Import Utils.

(** A backend whose world is the log of the library calls made so far.  A
    dataset is its number of examples, a sampler the indices it draws
    from, a loader the indices it serves. *)
Definition logged {A} (entry : string) (a : A) : Call.M (list string) A :=
  fun w => (Return a, w ++ [entry]).

Definition log_dataset (entry : string) (config : Config)
    : Call.M (list string) (Z * Z * option unit * option unit) :=
  logged entry (10, 4, None, None).

Definition log_backend : @backend (list string) Z unit (list Z) (list Z) :=
  {| load_cifar10 := log_dataset "cifar10";
     load_cifar100 := log_dataset "cifar100";
     load_svhn := log_dataset "svhn";
     load_ImageNet16_120 := log_dataset "ImageNet16-120";
     load_scifar100 := log_dataset "scifar100";
     load_ninapro := log_dataset "ninapro";
     load_jigsaw := log_dataset "jigsaw";
     load_class_object := log_dataset "class_object";
     load_class_scene := log_dataset "class_scene";
     load_autoencoder := log_dataset "autoencoder";
     load_segmentsemantic := log_dataset "segmentsemantic";
     load_normal := log_dataset "normal";
     load_room_layout := log_dataset "room_layout";
     len := fun d => d;
     SubsetRandomSampler := fun l => l;
     np_random_seed := fun z => logged "np.random.seed" VNone;
     DataLoader := fun d _ sampler _ =>
       logged "DataLoader" (match sampler with Some l => l | None => range d end) |}.

Definition config_of (name : string) : Config :=
  {| data := "data"; dataset := name; seed := 0;
     train_portion := 7 # 10; batch_size := 2 |}.

(** A predictor that remembers the targets it was fitted on and answers a
    query with the sum of them for every input; scores are integers. *)
Definition sum_toolkit : @toolkit Z Z (list Z) Z (list Z) :=
  {| fit := fun _ _ ys => Return ys;
     query := fun p xs => Return (map (fun _ => foldr Z.add 0 p) xs);
     shape_len := fun _ => 1;
     np_mean_axis0 := fun pred => Return pred;
     np_round := fun pred _ => Return pred;
     abs_corrcoef := fun _ _ => Return 0;
     mean_abs_diff := fun pred ys =>
       Return (foldr Z.add 0 (zip_with (fun a b => Z.abs (a - b)) pred ys));
     mean_squared_error := fun _ _ => Return 0;
     spearmanr := fun _ _ => Return 0;
     kendalltau := fun _ _ => Return 0;
     np_mean := fun l => Return (foldr Z.add 0 l / Z.of_nat (length l)) |}.

End Instances.

(** ** More of [naslib/utils/utils.py] *)

(** *** [iter_flatten] *)

Module Nesting.

(** An element of a nested Python list: a list, a tuple, or anything
    else. *)
#[warnings="-register-all"]
Inductive item (A : Type) : Type :=
| Atom (a : A)
| PyList (es : list (item A))
| PyTuple (es : list (item A)).
Arguments Atom {A} a.
Arguments PyList {A} es.
Arguments PyTuple {A} es.

(** What the loop body yields for one element [e]. *)
Fixpoint flatten_item {A} (e : item A) : list A :=
  match e with
  | Atom a => [a]
  | PyList es => flat_map flatten_item es
  | PyTuple es => flat_map flatten_item es
  end.

(** The values the generator yields, in order. *)
Definition iter_flatten {A} (iterable : list (item A)) : list A :=
  flat_map flatten_item iterable.

(** [a] is an element of [e] at some depth. *)
Inductive occurs {A} (a : A) : item A -> Prop :=
| occurs_atom : occurs a (Atom a)
| occurs_list e es : In e es -> occurs a e -> occurs a (PyList es)
| occurs_tuple e es : In e es -> occurs a e -> occurs a (PyTuple es).

End Nesting.

(** *** [pairwise] *)

Module Pairwise.
Section WithItem.
Context {A : Type}.

(** [next(a)] on a list iterator: the item and the iterator after it, or
    nothing when it is exhausted. *)
Definition next (it : list A) : option (A * list A) :=
  match it with
  | [] => None
  | x :: rest => Some (x, rest)
  end.

(** [zip(a, a)] on one shared iterator: each round asks the iterator
    twice, and the first refusal ends the zip (an item already taken in
    that round is lost).  [rounds] bounds the number of rounds. *)
Fixpoint zip_shared (rounds : nat) (a : list A) : list (A * A) :=
  match rounds with
  | O => []
  | S rounds' =>
      match next a with
      | None => []
      | Some (s0, a1) =>
          match next a1 with
          | None => []
          | Some (s1, a2) => (s0, s1) :: zip_shared rounds' a2
          end
      end
  end.

(** No more rounds than items can succeed. *)
Definition pairwise (iterable : list A) : list (A * A) :=
  zip_shared (length iterable) iterable.

End WithItem.
End Pairwise.


(** *** [TensorDatasetWithTrans] *)

Module TensorDatasetWithTrans.
Section WithSample.
(** A tensor is the list of its slices along the first dimension: [t[i]]
    is a slice (of type [A]) and [t.size(0)] the number of slices. *)
Context {A : Type}.

Record t : Type := {
  tensors : list (list A);
  transform : option (A -> result A)
}.

(** [all(f(x) for x in l)]: the items are tested in order, the first false
    one ends the test, and an exception in a test is the outcome. *)
Fixpoint py_all {B} (f : B -> result bool) (l : list B) : result bool :=
  match l with
  | [] => Return true
  | x :: rest =>
      match f x with
      | Raise e => Raise e
      | Return false => Return false
      | Return true => py_all f rest
      end
  end.

(** [__init__] *)
Definition init (tensors : list (list A)) (transform : option (A -> result A))
    : result t :=
  same ← py_all
            (fun tensor =>
               first ← py_index tensors 0;
               Return (Z.of_nat (length first) =? Z.of_nat (length tensor)))
            tensors;
  if same : bool then Return {| tensors := tensors; transform := transform |}
  else Raise AssertionError.

(** [__getitem__] *)
Definition getitem (self : t) (index : Z) : result (A * A) :=
  first ← py_index (tensors self) 0;
  x ← py_index first index;
  x' ← match transform self with
        | Some f => f x
        | None => Return x
        end;
  second ← py_index (tensors self) 1;
  y ← py_index second index;
  Return (x', y).

(** [__len__] *)
Definition len (self : t) : result Z :=
  first ← py_index (tensors self) 0;
  Return (Z.of_nat (length first)).

End WithSample.
Arguments t : clear implicits.
End TensorDatasetWithTrans.

(** *** [get_last_checkpoint] *)

Module Checkpoint.

(** [s.startswith('/')] and [s.endswith('/')] *)
Definition starts_with_slash (s : string) : bool :=
  match s with
  | String c _ => Ascii.eqb c "/"%char
  | EmptyString => false
  end.

Fixpoint ends_with_slash (s : string) : bool :=
  match s with
  | EmptyString => false
  | String c EmptyString => Ascii.eqb c "/"%char
  | String _ rest => ends_with_slash rest
  end.

(** One round of the loop of [posixpath.join]. *)
Definition join_step (path b : string) : string :=
  if starts_with_slash b then b
  else if (String.eqb path "" || ends_with_slash path)%bool then (path ++ b)%string
  else (path ++ "/" ++ b)%string.

(** [os.path.join(a, *p)] on a POSIX system. *)
Definition join (a : string) (p : list string) : string :=
  fold_left join_step p a.

(** [f.readline()] at the start of a text: the first line with the newline
    that ends it, or the whole text when it has no newline. *)
Fixpoint readline (text : string) : string :=
  match text with
  | EmptyString => EmptyString
  | String c rest =>
      if Ascii.eqb c "010"%char then String c EmptyString
      else String c (readline rest)
  end.

(** [try: body  except: handler] with a bare [except]. *)
Definition try_except {B} (body : result B) (handler : result B) : result B :=
  match body with
  | Return b => Return b
  | Raise _ => handler
  end.

Section WithFiles.
(** [open(path, "r")] and the text read through it: the decoded text of
    the file, or the exception raised on the way. *)
Variable open_text : string -> result string.

Definition get_last_checkpoint (save : string) (search : bool) : result string :=
  try_except
    (let path := join save [if search then "search" else "eval"; "last_checkpoint"]%string in
     text ← open_text path;
     let checkpoint_name := readline text in
     Return (join save [if search then "search" else "eval"; checkpoint_name]%string))
    (Return ""%string).

End WithFiles.
End Checkpoint.

(** *** [log_args] *)

Module Logging.

(** [s * k] on a string: no copy at all for [k <= 0]. *)
Definition str_mul (s : string) (k : Z) : string :=
  Nat.iter (Z.to_nat k) (String.append s) EmptyString.

(** One line per item of [args], handed to [logger.info]; [val] is the
    text [str(val)].  The world is the list of lines logged so far. *)
Fixpoint log_args (args : list (string * string)) : Call.M (list string) value :=
  match args with
  | [] => Call.ret VNone
  | (arg, val) :: rest =>
      (fun w =>
         (Return VNone,
          w ++ [(arg
                 ++ str_mul "." (50 - Z.of_nat (String.length arg)
                                    - Z.of_nat (String.length val))
                 ++ val)%string])) ;;; log_args rest
  end%call.

End Logging.


(** *** [AverageMeterGroup] *)

Module AverageMeterGroup.
Import Utils.

(** [self.meters], an [OrderedDict]: the keys in the order of their
    first insertion, each with its meter. *)
Record t : Type := { meters : list (string * NamedAverageMeter.t) }.

(** [__init__] *)
Definition init : t := {| meters := [] |}.

(** [od[k]] for a key that may be absent. *)
Fixpoint od_get {V} (k : string) (od : list (string * V)) : option V :=
  match od with
  | [] => None
  | (k', v) :: rest => if String.eqb k k' then Some v else od_get k rest
  end.

(** [od[k] = v]: in place for a key that is there, at the end for a new
    one. *)
Fixpoint od_set {V} (k : string) (v : V) (od : list (string * V))
    : list (string * V) :=
  match od with
  | [] => [(k, v)]
  | (k', v') :: rest =>
      if String.eqb k k' then (k', v) :: rest else (k', v') :: od_set k v rest
  end.

(** One pass of the loop of [update]: the meter under [k], made on the
    spot when [k] is new, takes the value; the dictionary holds the meter
    as its [update] left it, also when that raised. *)
Definition update_item (self : t) (k : string) (v : Q) (n : Z)
    : result value * t :=
  let meter :=
    match od_get k (meters self) with
    | Some m => m
    | None => NamedAverageMeter.init k ":4f"
    end in
  let '(outcome, meter') := NamedAverageMeter.update meter v n in
  (outcome, {| meters := od_set k meter' (meters self) |}).

(** [update(data, n)], with [data.items()] as the list of its pairs. *)
Fixpoint update (self : t) (data : list (string * Q)) (n : Z) : result value * t :=
  match data with
  | [] => (Return VNone, self)
  | (k, v) :: rest =>
      match update_item self k v n with
      | (Return _, self') => update self' rest n
      | (Raise e, self') => (Raise e, self')
      end
  end.

(** A sequence of [update(data, n)] calls. *)
Fixpoint updates (self : t) (calls : list (list (string * Q) * Z))
    : result value * t :=
  match calls with
  | [] => (Return VNone, self)
  | (data, n) :: rest =>
      match update self data n with
      | (Return _, self') => updates self' rest
      | (Raise e, self') => (Raise e, self')
      end
  end.

(** What every meter of a group satisfies once it has been updated: it is
    named after its key, formatted as the group formats, has counted
    something, and its average is its sum over its count. *)
Definition meter_ok (entry : string * NamedAverageMeter.t) : Prop :=
  NamedAverageMeter.name (snd entry) = fst entry /\
  NamedAverageMeter.fmt (snd entry) = ":4f"%string /\
  0 < NamedAverageMeter.count (snd entry) /\
  NamedAverageMeter.avg (snd entry)
  = (NamedAverageMeter.sum (snd entry)
     / inject_Z (NamedAverageMeter.count (snd entry)))%Q.

End AverageMeterGroup.

(** *** [Cutout] *)

Module Cutout.

Record t : Type := { length : Z; prob : Q }.

(** An image tensor of shape [(channels, height, width)] and its
    entries. *)
Record image : Type := {
  channels : Z;
  height : Z;
  width : Z;
  pixel : Z -> Z -> Z -> Q
}.

(** [np.clip(a, lo, hi)] *)
Definition np_clip (a lo hi : Z) : Z := Z.min (Z.max a lo) hi.

(** The bounds [(y1, y2, x1, x2)] of the hole around the centre
    [(y, x)]. *)
Definition hole (self : t) (h w y x : Z) : Z * Z * Z * Z :=
  (np_clip (y - length self / 2) 0 h, np_clip (y + length self / 2) 0 h,
   np_clip (x - length self / 2) 0 w, np_clip (x + length self / 2) 0 w).

(** The mask after [mask[y1:y2, x1:x2] = 0.0] on an array of ones of shape
    [(h, w)], at row [i] and column [j]. *)
Definition mask (h w y1 y2 x1 x2 : Z) (i j : Z) : Q :=
  if (slice_bound h y1 <=? i) && (i <? slice_bound h y2)
     && (slice_bound w x1 <=? j) && (j <? slice_bound w x2)
  then 0%Q else 1%Q.

(** [__call__], with the values the random generator hands out as
    arguments: [coin] from [np.random.binomial(1, prob)], [y] from
    [np.random.randint(h)] and [x] from [np.random.randint(w)], which
    refuse a bound that is not positive. *)
Definition call (self : t) (coin y x : Z) (img : image) : result image :=
  if coin =? 0 then Return img
  else
    let h := height img in
    let w := width img in
    if h <=? 0 then Raise (ValueError "high <= 0")
    else if w <=? 0 then Raise (ValueError "high <= 0")
    else
      let '(y1, y2, x1, x2) := hole self h w y x in
      Return {| channels := channels img; height := h; width := w;
                pixel := fun c i j =>
                  (pixel img c i j * mask h w y1 y2 x1 x2 i j)%Q |}.

End Cutout.


(** *** The two meters side by side *)

Module Meters.
Import Utils.

(** What a [NamedAverageMeter] shares with an [AverageMeter]: [avg],
    [sum], and [count] as [cnt]. *)
Definition plain_part (m : NamedAverageMeter.t) : AverageMeter.t :=
  {| AverageMeter.avg := NamedAverageMeter.avg m;
     AverageMeter.sum := NamedAverageMeter.sum m;
     AverageMeter.cnt := NamedAverageMeter.count m |}.

End Meters.


(** *** [compute_scores]: the precision of the top [k]

    The part of [compute_scores] that is plain Python over the values: the
    two masks of the loop over [k] and the fraction computed from them.
    Values are finite numbers, kept as rationals. *)

Module Scores.

(** [x > t] *)
Definition gt (x t : Q) : bool := negb (Qle_bool x t).

(** [sorted(l)]: ascending, equal values in the order they came in. *)
Fixpoint insert (x : Q) (l : list Q) : list Q :=
  match l with
  | [] => [x]
  | y :: rest => if Qle_bool x y then x :: y :: rest else y :: insert x rest
  end.

Fixpoint sorted (l : list Q) : list Q :=
  match l with
  | [] => []
  | x :: rest => insert x (sorted rest)
  end.

(** [[y > sorted(values)[max(-len(values), -k - 1)] for y in values]] *)
Definition top_mask (values : list Q) (k : Z) : result (list bool) :=
  comprehension
    (fun y =>
       threshold ← py_index (sorted values)
                     (Z.max (- Z.of_nat (length values)) (- k - 1));
       Return (gt y threshold))
    values.

(** [a & b] on the arrays [np.array] makes of two lists of booleans.  An
    empty list becomes an array of floats, which [&] refuses; arrays of
    different lengths are combined only when one of them has a single
    entry, which is then used against every entry of the other. *)
Definition np_and (a b : list bool) : result (list bool) :=
  match a, b with
  | [], _ => Raise (Exception "TypeError")
  | _, [] => Raise (Exception "TypeError")
  | [a0], _ => Return (map (andb a0) b)
  | _, [b0] => Return (map (fun x => andb x b0) a)
  | _, _ =>
      if Nat.eqb (length a) (length b) then Return (zip_with andb a b)
      else Raise (ValueError "operands could not be broadcast together")
  end.

(** [sum(mask)] counts the true entries. *)
Definition py_sum_bool (mask : list bool) : Z :=
  fold_left (fun acc (b : bool) => if b then acc + 1 else acc) mask 0.

(** The value stored under ["precision_<k>"] for [k] in [[10, 20]]. *)
Definition precision (ytest test_pred : list Q) (k : Z) : result Q :=
  top_ytest ← top_mask ytest k;
  top_test_pred ← top_mask test_pred k;
  both ← np_and top_ytest top_test_pred;
  Return (inject_Z (py_sum_bool both) / inject_Z k)%Q.

End Scores.


(** ** More concrete collaborators *)

Module MoreInstances.

(** The newline character as a string. *)
Definition newline : string := String "010"%char EmptyString.

(** Three marker files: one ending in a newline, one without, one that
    holds an absolute path; nothing else can be opened. *)
Definition marker_files (path : string) : result string :=
  if String.eqb path "out/search/last_checkpoint"
  then Return ("model_0000010.pth" ++ newline)%string
  else if String.eqb path "out/eval/last_checkpoint"
  then Return "model_final.pth"%string
  else if String.eqb path "run/search/last_checkpoint"
  then Return "/ckpt/model.pth"%string
  else Raise (Exception "FileNotFoundError").

(** A 3-channel 4-by-4 image whose pixels are all one. *)
Definition white_image : Cutout.image :=
  {| Cutout.channels := 3; Cutout.height := 4; Cutout.width := 4;
     Cutout.pixel := fun _ _ _ => 1%Q |}.

End MoreInstances.

(** * Properties *)

(** ** The base class *)

Section MetaOptimizerFacts.
Context {Graph Scope Batch : Type}.
Implicit Types (w : gmap nat (object Graph)) (self : nat).

(** C3: in the base class, [step], [adapt_search_space] and
    [get_final_architecture] raise [NotImplementedError] whatever the
    receiver, the arguments and the store are; they do nothing else (the
    store is as it was), so the base class has no default behaviour for
    them. *)
Theorem required_operations_raise self (data_train data_val : Batch)
    (search_space : nat) (scope : option Scope) w :
  MetaOptimizer.step self data_train data_val w = (Raise NotImplementedError, w) /\
  MetaOptimizer.adapt_search_space self search_space scope w
    = (Raise NotImplementedError, w) /\
  MetaOptimizer.get_final_architecture self w = (Raise NotImplementedError, w).
Proof. repeat split. Qed.

(** C4: the default hooks [new_epoch], [before_training] and
    [after_training] hand back [None] and leave the whole store, hence the
    state of the optimizer, as it was, for every store and every epoch. *)
Theorem default_hooks_are_noops self (epoch : Z) w :
  MetaOptimizer.new_epoch self epoch w = (Return VNone, w) /\
  MetaOptimizer.before_training self w = (Return VNone, w) /\
  MetaOptimizer.after_training self w = (Return VNone, w).
Proof. repeat split. Qed.

(** The body of the abstract [get_op_optimizer] does not raise, unlike the
    three other abstract methods: reached through [super()], it hands
    back [None]. *)
Lemma base_get_op_optimizer_is_None self w :
  MetaOptimizer.get_op_optimizer self w = (Return VNone, w).
Proof. reflexivity. Qed.

End MetaOptimizerFacts.

(** ** The variants on a shared store *)

Section VariantFacts.
Context {Graph Scope : Type}.
Variable required_hooks : Variants.variant -> Graph -> bool.
Variable update : Variants.variant -> option Scope -> Graph -> Graph.
Implicit Types (w : gmap nat (object Graph)) (self : nat).

Lemma deepcopy_fresh w : w !! fresh (dom w) = None.
Proof. apply not_elem_of_dom, is_fresh. Qed.


(** When the call succeeds, the receiver holds a reference that did not
    exist before, and the object there is the updated copy. *)
Lemma adapt_search_space_stores_copy v self search_space scope w g attrs :
  w !! search_space = Some (GraphObj g) ->
  w !! self = Some (Instance attrs) ->
  required_hooks v g = true ->
  let w' := (Variants.adapt_search_space required_hooks update v self
               search_space scope w).2 in
  let copy := fresh (dom w) in
  w !! copy = None /\
  w' !! copy = Some (GraphObj (update v scope g)) /\
  w' !! self = Some (Instance (<["graph" := VRef copy]> attrs)).
Proof.
  intros Hss Hself Hreq. unfold Variants.adapt_search_space.
  rewrite Hss, Hreq. simpl.
  assert (fresh (dom w) <> self) as Hne.
  { intros Heq. rewrite <- Heq, deepcopy_fresh in Hself. done. }
  split; [apply deepcopy_fresh|]. split.
  - rewrite lookup_alter_ne by done.
    rewrite lookup_alter_eq, lookup_insert_eq. reflexivity.
  - rewrite lookup_alter_eq, lookup_alter_ne, lookup_insert_ne by done.
    rewrite Hself. reflexivity.
Qed.


End VariantFacts.

(** ** [count_parameters_in_MB] and [get_model_size] *)

Section Footprint.
Import Utils.





Lemma append_String (c : Ascii.ascii) (a b : string) :
  (String c a ++ b)%string = String c (a ++ b)%string.
Proof. reflexivity. Qed.

Lemma append_Empty (b : string) : (EmptyString ++ b)%string = b.
Proof. reflexivity. Qed.

Lemma prefix_split (sub s : string) :
  String.prefix sub s = true <-> exists post, s = (sub ++ post)%string.
Proof.
  revert s; induction sub as [|c sub IH]; intros s; simpl.
  - split; [intros _; exists s; reflexivity | destruct s; reflexivity].
  - destruct s as [|c' s]; simpl.
    + split; [discriminate | intros [post H]; discriminate].
    + destruct (Ascii.ascii_dec c c') as [->|Hne].
      * rewrite IH. split; intros [post H]; exists post;
          rewrite append_String in *; congruence.
      * split; [discriminate |].
        intros [post H]. rewrite append_String in H. congruence.
Qed.

(** [contains sub s] is the test [sub in s]: [sub] occurs in [s]. *)
Lemma contains_occurs (sub s : string) :
  contains sub s = true <->
  exists pre post, s = (pre ++ sub ++ post)%string.
Proof.
  induction s as [|c s IH]; cbn [contains].
  - rewrite orb_false_r, prefix_split. split.
    + intros [post H]. exists EmptyString, post. exact H.
    + intros [[|c pre] [post H]]; [exists post; exact H | discriminate].
  - rewrite orb_true_iff, prefix_split, IH. split.
    + intros [[post H] | (pre & post & H)].
      * exists EmptyString, post. exact H.
      * exists (String c pre), post. rewrite append_String. congruence.
    + intros [[|c' pre] [post H]].
      * left. exists post. exact H.
      * right. exists pre, post. rewrite append_String in H. congruence.
Qed.



End Footprint.

(** ** [get_train_val_loaders] *)

Section LoaderFacts.
Import Utils.
Context {W Dataset Transform Sampler Queue : Type}.
Variable B : @backend W Dataset Transform Sampler Queue.

Lemma branches_names : map fst (branches B) = recognized_datasets.
Proof. reflexivity. Qed.

Ltac next_name H :=
  match goal with
  | |- context [String.eqb ?d ?s] =>
      destruct (String.eqb_spec d s) as [Heq|_];
      [exfalso; apply H; rewrite Heq; unfold recognized_datasets;
       rewrite list_elem_of_In; simpl; tauto |]
  end.

Lemma select_dataset_unknown config :
  dataset config ∉ recognized_datasets ->
  select_dataset B config
  = Call.raise (ValueError ("Unknown dataset: " ++ dataset config)).
Proof.
  intros H. unfold select_dataset.
  do 13 next_name H. reflexivity.
Qed.

Lemma select_dataset_recognized config :
  dataset config ∈ recognized_datasets ->
  exists load, (dataset config, load) ∈ branches B /\
               select_dataset B config = load config.
Proof.
  intros H. unfold select_dataset.
  unfold recognized_datasets in H. rewrite list_elem_of_In in H. simpl in H.
  repeat (destruct H as [H|H]); try done; rewrite <- H; simpl;
    eexists; (split; [|reflexivity]);
    unfold branches; rewrite list_elem_of_In; simpl; tauto.
Qed.

(** C6: under a dataset name that is not one of the thirteen recognized
    ones, [get_train_val_loaders] ends at once with the [ValueError] that
    names the dataset, and the world is as it was: no dataset was opened and
    no loader built.  Under a recognized name the chain does not reach its
    [else]: it runs the branch of that name, and the loaders are built from
    what the branch gives. *)
Theorem get_train_val_loaders_dispatch config (w : W) :
  (dataset config ∉ recognized_datasets ->
   get_train_val_loaders B config w
   = (Raise (ValueError ("Unknown dataset: " ++ dataset config)), w)) /\
  (dataset config ∈ recognized_datasets ->
   exists load,
     (dataset config, load) ∈ branches B /\
     select_dataset B config = load config /\
     get_train_val_loaders B config
     = (l <~ load config ;; make_queues B config l)%call).
Proof.
  split; intros H.
  - unfold get_train_val_loaders, Call.bind.
    rewrite (select_dataset_unknown _ H). reflexivity.
  - destruct (select_dataset_recognized _ H) as (load & Hin & Hsel).
    exists load. repeat split; try done.
    unfold get_train_val_loaders. rewrite Hsel. reflexivity.
Qed.

End LoaderFacts.

(** ** [cross_validation] *)

Section CrossValidationFacts.
Import Utils.
Context {X Y Pred Score P : Type}.
Variable T : @toolkit X Y Pred Score P.
Implicit Types (xtrain : list X) (ytrain : list Y) (predictor : P)
  (score_metric : string) (split_indices : list (list Z * list Z)).

(** The inputs the predictor is queried on and the targets it is scored
    against are the selection by [train_indices]: the pass is the one that
    fits, queries and scores on that single selection. *)
Lemma cross_validation_split_on_training xtrain ytrain predictor score_metric
    train_indices validation_indices :
  cross_validation_split T xtrain ytrain predictor score_metric
    train_indices validation_indices
  = (xs ← comprehension (py_index xtrain) train_indices;
     ys ← comprehension (py_index ytrain) train_indices;
     predictor' ← fit T predictor xs ys;
     ypred ← query T predictor' xs;
     ypred' ← (if 1 <? shape_len T ypred then np_mean_axis0 T ypred
               else Return ypred);
     score_i ← score T score_metric ys ypred';
     Return (predictor', score_i)).
Proof.
  unfold cross_validation_split.
  destruct (comprehension (py_index xtrain) train_indices) as [xs|e]; [|done].
  destruct (comprehension (py_index ytrain) train_indices) as [ys|e]; done.
Qed.



End CrossValidationFacts.

(** ** The meters *)

Section MeterFacts.
Import Utils.
Local Open Scope Q_scope.

Lemma true_div_nonzero (x : Q) (d : Z) :
  (d <> 0)%Z -> true_div x d = Return (x / inject_Z d).
Proof. intros H. unfold true_div. destruct (Z.eqb_spec d 0); [done|reflexivity]. Qed.




End MeterFacts.

(** ** [generate_kfold] *)

Section KFoldFacts.
Import Utils.

Lemma length_range (n : Z) : length (range n) = Z.to_nat n.
Proof. apply length_seqZ. Qed.

Lemma elem_of_range (n x : Z) : x ∈ range n <-> 0 <= x < n.
Proof. unfold range. rewrite elem_of_seqZ. lia. Qed.

Lemma drop_seqZ (m n a : Z) :
  0 <= a <= n -> drop (Z.to_nat a) (seqZ m n) = seqZ (m + a) (n - a).
Proof.
  intros H. replace n with (a + (n - a)) at 1 by lia.
  rewrite seqZ_app by lia.
  apply drop_app_length'. rewrite length_seqZ. reflexivity.
Qed.

Lemma take_seqZ (m n b : Z) :
  0 <= b <= n -> take (Z.to_nat b) (seqZ m n) = seqZ m b.
Proof.
  intros H. replace n with (b + (n - b)) at 1 by lia.
  rewrite seqZ_app by lia.
  apply take_app_length'. rewrite length_seqZ. reflexivity.
Qed.

Lemma slice_bound_inside (len b : Z) : 0 <= b <= len -> slice_bound len b = b.
Proof. intros H. unfold slice_bound. destruct (Z.ltb_spec b 0); lia. Qed.

(** A slice of [range(n)] between bounds in order and in range is the
    interval between them. *)
Lemma py_slice_range (n a b : Z) :
  0 <= a <= b -> b <= n -> py_slice (range n) a b = seqZ a (b - a).
Proof.
  intros Hab Hbn. unfold py_slice. rewrite length_range.
  rewrite Z2Nat.id by lia.
  rewrite !slice_bound_inside by lia. unfold range.
  rewrite drop_seqZ by lia. rewrite take_seqZ by lia.
  f_equal.
Qed.

Lemma py_slice_from_range (n a : Z) :
  0 <= a <= n -> py_slice_from (range n) a = seqZ a (n - a).
Proof.
  intros Ha. unfold py_slice_from. rewrite length_range.
  rewrite Z2Nat.id by lia.
  rewrite slice_bound_inside by lia. unfold range.
  rewrite drop_seqZ by lia. f_equal.
Qed.

Lemma py_index_inside {A} (l : list A) (j : Z) (a : A) :
  0 <= j -> l !! Z.to_nat j = Some a -> py_index l j = Return a.
Proof.
  intros Hj Hl. unfold py_index.
  apply lookup_lt_Some in Hl as Hlt.
  destruct (Z.ltb_spec j 0); [lia|].
  destruct (Z.ltb_spec j 0); [lia|].
  destruct (Z.leb_spec (Z.of_nat (length l)) j); [lia|].
  simpl. rewrite Hl. reflexivity.
Qed.

Lemma comprehension_map {A C} (f : A -> result C) (g : A -> C) (l : list A) :
  (forall x, x ∈ l -> f x = Return (g x)) ->
  comprehension f l = Return (map g l).
Proof.
  induction l as [|x l IH]; intros H; simpl; [reflexivity|].
  rewrite (H x) by apply list_elem_of_here.
  rewrite IH; [reflexivity|].
  intros y Hy. apply H. by apply list_elem_of_further.
Qed.

Lemma fold_size_bounds (n k : Z) :
  0 <= n -> 2 <= k -> 0 <= n / k /\ k * (n / k) <= n.
Proof.
  intros Hn Hk. split.
  - apply Z.div_pos; lia.
  - apply Z.mul_div_le. lia.
Qed.

(** The list [fold_indices] built by the code holds the intervals. *)
Lemma fold_indices_lookup (n k j : Z) :
  0 <= n -> 2 <= k -> 0 <= j < k ->
  (map (fun i => py_slice (range n) (i * (n / k)) ((i + 1) * (n / k)))
     (range (k - 1))
   ++ [py_slice_from (range n) ((k - 1) * (n / k))]) !! Z.to_nat j
  = Some (fold_interval n k j).
Proof.
  intros Hn Hk Hj. destruct (fold_size_bounds n k Hn Hk) as [Hfs Hle].
  unfold fold_interval. destruct (Z.ltb_spec j (k - 1)) as [Hlt|Hge].
  - rewrite lookup_app_l by (rewrite length_map, length_range; lia).
    rewrite list_lookup_fmap.
    change (range (k - 1)) with (seqZ 0 (k - 1)).
    rewrite lookup_seqZ_lt by lia. simpl.
    rewrite Z2Nat.id by lia.
    rewrite py_slice_range by nia. f_equal. f_equal. lia.
  - assert (j = k - 1) as -> by lia.
    rewrite lookup_app_r by (rewrite length_map, length_range; lia).
    rewrite length_map, length_range, Nat.sub_diag. simpl.
    rewrite py_slice_from_range by nia. reflexivity.
Qed.

Lemma fold_indices_length (n k : Z) (f : Z -> list Z) (last : list Z) :
  2 <= k -> length (map f (range (k - 1)) ++ [last]) = Z.to_nat k.
Proof.
  intros Hk. rewrite length_app, length_map, length_range. simpl. lia.
Qed.

(** Membership in a fold is membership in its interval. *)
Lemma elem_of_fold_interval (n k j x : Z) :
  x ∈ fold_interval n k j <->
  (j < k - 1 /\ j * (n / k) <= x < (j + 1) * (n / k)) \/
  (k - 1 <= j /\ (k - 1) * (n / k) <= x < n).
Proof.
  unfold fold_interval. destruct (Z.ltb_spec j (k - 1));
    rewrite elem_of_seqZ; lia.
Qed.

Lemma fold_intervals_disjoint (n k i j x : Z) :
  0 <= n -> 2 <= k -> 0 <= i < k -> 0 <= j < k -> i <> j ->
  x ∈ fold_interval n k i -> x ∈ fold_interval n k j -> False.
Proof.
  intros Hn Hk Hi Hj Hne. rewrite !elem_of_fold_interval.
  destruct (fold_size_bounds n k Hn Hk) as [Hfs Hle].
  intros [[Hi1 Hx1]|[Hi1 Hx1]] [[Hj1 Hx2]|[Hj1 Hx2]]; nia.
Qed.

Lemma fold_intervals_cover (n k x : Z) :
  0 <= n -> 2 <= k -> 0 <= x < n ->
  exists j, 0 <= j < k /\ x ∈ fold_interval n k j.
Proof.
  intros Hn Hk Hx. destruct (fold_size_bounds n k Hn Hk) as [Hfs Hle].
  destruct (Z_lt_le_dec x ((k - 1) * (n / k))) as [Hlt|Hge].
  - assert (0 < n / k) as Hpos by nia.
    exists (x / (n / k)).
    pose proof (Z.mul_div_le x (n / k) Hpos).
    pose proof (Z.mul_succ_div_gt x (n / k) Hpos).
    assert (0 <= x / (n / k)) by (apply Z.div_pos; lia).
    assert (x / (n / k) < k - 1) by (apply Z.div_lt_upper_bound; lia).
    split; [lia|]. rewrite elem_of_fold_interval. left. lia.
  - exists (k - 1). split; [lia|]. rewrite elem_of_fold_interval. right. lia.
Qed.

Lemma fold_interval_in_range (n k j x : Z) :
  0 <= n -> 2 <= k -> 0 <= j < k -> x ∈ fold_interval n k j -> 0 <= x < n.
Proof.
  intros Hn Hk Hj. rewrite elem_of_fold_interval.
  destruct (fold_size_bounds n k Hn Hk) as [Hfs Hle].
  intros [[H1 H2]|[H1 H2]]; nia.
Qed.

Lemma fold_interval_length (n k j : Z) :
  0 <= n -> 2 <= k ->
  Z.of_nat (length (fold_interval n k j))
  = if j <? k - 1 then n / k else n - (k - 1) * (n / k).
Proof.
  intros Hn Hk. destruct (fold_size_bounds n k Hn Hk) as [Hfs Hle].
  unfold fold_interval. destruct (Z.ltb_spec j (k - 1));
    rewrite length_seqZ; nia.
Qed.

Lemma training_folds_nonempty (k i : Z) :
  2 <= k -> List.filter (fun j => negb (j =? i)) (range k) <> [].
Proof.
  intros Hk Hnil.
  assert (In (if i =? 0 then 1 else 0)
            (List.filter (fun j => negb (j =? i)) (range k))) as Hin.
  { apply filter_In. split.
    - apply list_elem_of_In, elem_of_range. destruct (Z.eqb_spec i 0); lia.
    - destruct (Z.eqb_spec i 0) as [->|Hi]; [reflexivity|].
      destruct (Z.eqb_spec 0 i); [lia|reflexivity]. }
  rewrite Hnil in Hin. destruct Hin.
Qed.

(** What the code computes, in closed form: pair [i] has the [i]-th
    interval as validation indices and the other intervals, in order, as
    training indices. *)
Lemma generate_kfold_closed_form (n k : Z) :
  0 <= n -> 2 <= k ->
  generate_kfold n k
  = Return
      (map
         (fun i =>
            (concat
               (map (fold_interval n k)
                  (List.filter (fun j => negb (j =? i)) (range k))),
             fold_interval n k i))
         (range k)).
Proof.
  intros Hn Hk. unfold generate_kfold.
  destruct (Z.leb_spec 2 k) as [_|]; [|lia]. simpl.
  apply comprehension_map. intros i Hi. apply elem_of_range in Hi.
  unfold training_folds.
  rewrite (comprehension_map _ (fold_interval n k)).
  - simpl.
    rewrite (py_index_inside _ i (fold_interval n k i))
      by (try apply fold_indices_lookup; lia).
    simpl. unfold np_concatenate.
    pose proof (training_folds_nonempty k i Hk) as Hne.
    destruct (List.filter (fun j => negb (j =? i)) (range k)); [done|].
    reflexivity.
  - intros j Hj. apply list_elem_of_In, filter_In in Hj as [Hj _].
    apply list_elem_of_In, elem_of_range in Hj.
    apply py_index_inside; [lia|]. apply fold_indices_lookup; lia.
Qed.

(** C8: for [n >= 0] and [k >= 2], [generate_kfold(n, k)] returns a list
    of exactly [k] pairs; in each pair the training and the validation
    indices have no index in common and together are exactly
    [0 .. n-1]; the validation indices of each of the first [k - 1] pairs
    are [n // k] many, those of the last pair [n - (k-1) * (n // k)]. *)
Theorem generate_kfold_partitions (n k : Z) :
  0 <= n -> 2 <= k ->
  exists kfold_indices,
    generate_kfold n k = Return kfold_indices /\
    length kfold_indices = Z.to_nat k /\
    (forall tr va, (tr, va) ∈ kfold_indices ->
       (forall x, x ∈ tr -> x ∉ va) /\
       (forall x, x ∈ tr \/ x ∈ va <-> 0 <= x < n)) /\
    (forall i, (i < Z.to_nat k)%nat ->
       exists tr va,
         kfold_indices !! i = Some (tr, va) /\
         Z.of_nat (length va)
         = if Z.of_nat i <? k - 1 then n / k else n - (k - 1) * (n / k)).
Proof.
  intros Hn Hk. eexists. split; [apply generate_kfold_closed_form; lia|].
  split; [rewrite length_map, length_range; reflexivity|].
  assert (forall i x, 0 <= i < k ->
            x ∈ concat (map (fold_interval n k)
                          (List.filter (fun j => negb (j =? i)) (range k)))
            <-> exists j, 0 <= j < k /\ j <> i /\ x ∈ fold_interval n k j)
    as Htrain.
  { intros i x Hi. rewrite list_elem_of_In, in_concat. split.
    - intros (l & Hl & Hx). apply in_map_iff in Hl as (j & <- & Hj).
      apply filter_In in Hj as [Hj Hji].
      apply list_elem_of_In, elem_of_range in Hj.
      exists j. split; [lia|]. split.
      + destruct (Z.eqb_spec j i); [discriminate|done].
      + by apply list_elem_of_In.
    - intros (j & Hj & Hji & Hx). exists (fold_interval n k j). split.
      + apply in_map, filter_In. split.
        * by apply list_elem_of_In, elem_of_range.
        * destruct (Z.eqb_spec j i); [done|reflexivity].
      + by apply list_elem_of_In. }
  split.
  - intros tr va Hin.
    apply list_elem_of_In, in_map_iff in Hin as (i & Heq & Hi).
    apply list_elem_of_In, elem_of_range in Hi.
    injection Heq as <- <-. split.
    + intros x Hx Hva. apply Htrain in Hx as (j & Hj & Hji & Hx); [|lia].
      exact (fold_intervals_disjoint n k j i x Hn Hk Hj Hi Hji Hx Hva).
    + intros x. rewrite Htrain by lia. split.
      * intros [(j & Hj & _ & Hx)|Hx];
          eapply fold_interval_in_range; eauto.
      * intros Hx. destruct (fold_intervals_cover n k x Hn Hk Hx) as (j & Hj & Hxj).
        destruct (Z.eq_dec j i) as [->|Hji]; [by right|].
        left. exists j. done.
  - intros i Hi. do 2 eexists. split.
    + rewrite list_lookup_fmap. unfold range.
      rewrite lookup_seqZ_lt by lia. simpl. reflexivity.
    + rewrite fold_interval_length by lia. reflexivity.
Qed.

End KFoldFacts.

(** ** The statements at concrete inputs *)

Section Runs.
Import Utils Instances.

Example generate_kfold_7_3 :
  generate_kfold 7 3
  = Return [([2; 3; 4; 5; 6], [0; 1]);
            ([0; 1; 4; 5; 6], [2; 3]);
            ([0; 1; 2; 3], [4; 5; 6])].
Proof. vm_compute. reflexivity. Qed.

Example generate_kfold_2_3 :
  generate_kfold 2 3 = Return [([0; 1], []); ([0; 1], []); ([], [0; 1])].
Proof. vm_compute. reflexivity. Qed.

Example generate_kfold_one_fold : generate_kfold 7 1 = Raise AssertionError.
Proof. reflexivity. Qed.

Example py_index_negative : py_index [10; 20; 30] (-1) = Return 30.
Proof. reflexivity. Qed.

Example py_index_outside : py_index [10; 20; 30] 3 = Raise IndexError.
Proof. reflexivity. Qed.

Example py_slice_negative : py_slice [10; 20; 30; 40] (-3) (-1) = [20; 30].
Proof. reflexivity. Qed.

Example contains_auxiliary :
  contains "auxiliary" "cells.auxiliary_head.weight" = true /\
  contains "auxiliary" "cells.0.weight" = false.
Proof. split; reflexivity. Qed.

Example loaders_cifar10 :
  get_train_val_loaders log_backend (config_of "cifar10") []
  = (Return ([0; 1; 2; 3; 4; 5; 6], [7; 8; 9], [0; 1; 2; 3], None, None),
     ["cifar10"; "np.random.seed"; "DataLoader"; "np.random.seed";
      "DataLoader"; "np.random.seed"; "DataLoader"]%string).
Proof. vm_compute. reflexivity. Qed.

Example loaders_mnist :
  get_train_val_loaders log_backend (config_of "mnist") []
  = (Raise (ValueError "Unknown dataset: mnist"), []).
Proof. vm_compute. reflexivity. Qed.

Example cross_validation_unknown_metric :
  cross_validation sum_toolkit [1; 2; 3] [10; 20; 30] [] [([0; 1], [2])] "r2"
  = Raise (UnboundLocalError "score_i").
Proof. reflexivity. Qed.

Example cross_validation_mae :
  cross_validation sum_toolkit [1; 2; 3] [10; 20; 30] [] [([0; 1], [2])] "mae"
  = Return (30, [10; 20]).
Proof. vm_compute. reflexivity. Qed.

(** The dispatch on the logging backend: "mnist" is turned away with the
    world untouched, "svhn" runs its branch. *)
Lemma get_train_val_loaders_dispatch_witness :
  (("mnist"%string ∉ recognized_datasets) /\
   get_train_val_loaders log_backend (config_of "mnist") []
   = (Raise (ValueError "Unknown dataset: mnist"), [])) /\
  ("svhn"%string ∈ recognized_datasets /\
   exists load,
     ("svhn"%string, load) ∈ branches log_backend /\
     select_dataset log_backend (config_of "svhn") = load (config_of "svhn") /\
     get_train_val_loaders log_backend (config_of "svhn")
     = (l <~ load (config_of "svhn") ;;
        make_queues log_backend (config_of "svhn") l)%call).
Proof.
  assert ("mnist"%string ∉ recognized_datasets) as Hout.
  { apply (bool_decide_unpack _). vm_compute. exact I. }
  assert ("svhn"%string ∈ recognized_datasets) as Hin.
  { apply (bool_decide_unpack _). vm_compute. exact I. }
  split; (split; [assumption|]).
  - exact (proj1 (get_train_val_loaders_dispatch log_backend (config_of "mnist") [])
             Hout).
  - exact (proj2 (get_train_val_loaders_dispatch log_backend (config_of "svhn") [])
             Hin).
Defined.

(** Seven examples in three folds. *)
Lemma generate_kfold_partitions_witness :
  (0 <= 7 /\ 2 <= 3) /\
  exists kfold_indices,
    generate_kfold 7 3 = Return kfold_indices /\
    length kfold_indices = Z.to_nat 3 /\
    (forall tr va, (tr, va) ∈ kfold_indices ->
       (forall x, x ∈ tr -> x ∉ va) /\
       (forall x, x ∈ tr \/ x ∈ va <-> 0 <= x < 7)) /\
    (forall i, (i < Z.to_nat 3)%nat ->
       exists tr va,
         kfold_indices !! i = Some (tr, va) /\
         Z.of_nat (length va)
         = if Z.of_nat i <? 3 - 1 then 7 / 3 else 7 - (3 - 1) * (7 / 3)).
Proof.
  split; [lia|]. apply (generate_kfold_partitions 7 3); lia.
Defined.



Example meters_two_updates :
  NamedAverageMeter.updates (NamedAverageMeter.init "loss" ":f")
    [((1 # 2)%Q, 2); ((3 # 1)%Q, 1)]
  = (Return VNone,
     {| NamedAverageMeter.name := "loss"; NamedAverageMeter.fmt := ":f";
        NamedAverageMeter.val := 3 # 1;
        NamedAverageMeter.avg := ((0 + (1 # 2) * inject_Z 2 + (3 # 1) * inject_Z 1)
                                  / inject_Z 3)%Q;
        NamedAverageMeter.sum := (0 + (1 # 2) * inject_Z 2 + (3 # 1) * inject_Z 1)%Q;
        NamedAverageMeter.count := 3 |}).
Proof. reflexivity. Qed.

Example meter_zero_weight :
  AverageMeter.update AverageMeter.init (5 # 1)%Q 0
  = (Raise ZeroDivisionError,
     {| AverageMeter.avg := 0; AverageMeter.sum := (0 + (5 # 1) * inject_Z 0)%Q;
        AverageMeter.cnt := 0 |}).
Proof. reflexivity. Qed.

End Runs.

(** ** [iter_flatten] *)

Section FlattenFacts.
Import Nesting.
Context {A : Type}.

(** Induction over nested elements, with the hypothesis available for
    every member of a list or tuple. *)
Lemma item_nested_ind (P : item A -> Prop) :
  (forall a, P (Atom a)) ->
  (forall es, Forall P es -> P (PyList es)) ->
  (forall es, Forall P es -> P (PyTuple es)) ->
  forall e, P e.
Proof.
  intros Hatom Hlist Htuple.
  fix IH 1. intros [a|es|es].
  - apply Hatom.
  - apply Hlist. induction es as [|e es IHes]; constructor; [apply IH | exact IHes].
  - apply Htuple. induction es as [|e es IHes]; constructor; [apply IH | exact IHes].
Qed.

(** X1: a list without nesting comes back unchanged, and flattening is
    idempotent: the output, taken as a flat list again, flattens to
    itself. *)
Theorem iter_flatten_flat_input (l : list A) (iterable : list (item A)) :
  iter_flatten (map Atom l) = l /\
  iter_flatten (map Atom (iter_flatten iterable)) = iter_flatten iterable.
Proof.
  assert (forall l' : list A, iter_flatten (map Atom l') = l') as Hflat.
  { unfold iter_flatten. induction l' as [|a l' IH]; simpl; [reflexivity|].
    rewrite IH. reflexivity. }
  split; apply Hflat.
Qed.

Lemma flatten_item_occurs (a : A) (e : item A) :
  In a (flatten_item e) <-> occurs a e.
Proof.
  induction e as [b|es IH|es IH] using item_nested_ind; simpl.
  - split.
    + intros [->|[]]. constructor.
    + inversion 1. left. reflexivity.
  - rewrite in_flat_map. split.
    + intros (e & He & Ha). apply occurs_list with e; [exact He|].
      rewrite Forall_forall in IH. apply IH; [by apply list_elem_of_In | exact Ha].
    + inversion 1 as [|e es' He Ho|]; subst. exists e. split; [exact He|].
      rewrite Forall_forall in IH. apply IH; [by apply list_elem_of_In | exact Ho].
  - rewrite in_flat_map. split.
    + intros (e & He & Ha). apply occurs_tuple with e; [exact He|].
      rewrite Forall_forall in IH. apply IH; [by apply list_elem_of_In | exact Ha].
    + inversion 1 as [| |e es' He Ho]; subst. exists e. split; [exact He|].
      rewrite Forall_forall in IH. apply IH; [by apply list_elem_of_In | exact Ho].
Qed.

(** X2: the generator yields exactly the non-list, non-tuple elements that
    occur in the input at any depth: nothing is lost and nothing is
    invented. *)
Theorem iter_flatten_yields_occurrences (a : A) (iterable : list (item A)) :
  In a (iter_flatten iterable) <-> exists e, In e iterable /\ occurs a e.
Proof.
  unfold iter_flatten. rewrite in_flat_map.
  split; intros (e & He & Ha); exists e; (split; [exact He|]);
    apply flatten_item_occurs; exact Ha.
Qed.

(** X3: brackets do not matter, only the order of the leaves: a list or
    tuple in the input can be spliced into its place, and flattening
    distributes over concatenation. *)
Theorem iter_flatten_splice (es before after : list (item A)) :
  iter_flatten (before ++ PyList es :: after)
    = iter_flatten (before ++ es ++ after) /\
  iter_flatten (before ++ PyTuple es :: after)
    = iter_flatten (before ++ es ++ after) /\
  iter_flatten (before ++ after) = iter_flatten before ++ iter_flatten after.
Proof.
  unfold iter_flatten. rewrite !flat_map_app. simpl. repeat split.
Qed.

End FlattenFacts.

(** ** [pairwise] *)

Section PairwiseFacts.
Import Pairwise.
Context {A : Type}.

(** Any number of rounds that covers the items gives the same pairs. *)
Lemma zip_shared_rounds (r1 : nat) :
  forall (r2 : nat) (l : list A),
  (length l <= 2 * r1)%nat -> (length l <= 2 * r2)%nat ->
  zip_shared r1 l = zip_shared r2 l.
Proof.
  induction r1 as [|r1 IH]; intros r2 l H1 H2.
  - destruct l; [|simpl in H1; lia]. destruct r2; reflexivity.
  - destruct l as [|s0 [|s1 rest]].
    + destruct r2; reflexivity.
    + destruct r2; reflexivity.
    + destruct r2 as [|r2]; [simpl in H2; lia|].
      simpl. f_equal. apply IH; simpl in *; lia.
Qed.

Lemma pairwise_cons2 (s0 s1 : A) (rest : list A) :
  pairwise (s0 :: s1 :: rest) = (s0, s1) :: pairwise rest.
Proof.
  unfold pairwise.
  change (zip_shared (length (s0 :: s1 :: rest)) (s0 :: s1 :: rest))
    with ((s0, s1) :: zip_shared (S (length rest)) rest).
  f_equal. apply zip_shared_rounds; lia.
Qed.

(** X4: [pairwise] yields [len // 2] pairs, and the pairs laid end to end
    are the input without its last item when the length is odd: an
    unpaired trailing item is dropped silently. *)
Theorem pairwise_round_trip (iterable : list A) :
  length (pairwise iterable) = (length iterable / 2)%nat /\
  flat_map (fun p => [fst p; snd p]) (pairwise iterable)
    = take (2 * (length iterable / 2)) iterable.
Proof.
  assert (forall (n : nat) (l : list A),
            (length l <= n)%nat ->
            length (pairwise l) = (length l / 2)%nat /\
            flat_map (fun p => [fst p; snd p]) (pairwise l)
              = take (2 * (length l / 2)) l) as Hupto.
  { induction n as [|n IH]; intros l Hn.
    - destruct l; [split; reflexivity | simpl in Hn; lia].
    - destruct l as [|s0 [|s1 rest]]; [split; reflexivity | split; reflexivity |].
      rewrite pairwise_cons2.
      destruct (IH rest) as [Hlen Hflat]; [simpl in Hn; lia|].
      assert (length (s0 :: s1 :: rest) / 2 = S (length rest / 2))%nat as Hdiv.
      { simpl length.
        replace (S (S (length rest))) with (length rest + 1 * 2)%nat by lia.
        rewrite Nat.div_add by lia. lia. }
      rewrite Hdiv. split.
      + simpl. rewrite Hlen. reflexivity.
      + simpl flat_map. rewrite Hflat.
        replace (2 * S (length rest / 2))%nat
          with (S (S (2 * (length rest / 2)))) by lia.
        reflexivity. }
  apply (Hupto (length iterable)). lia.
Qed.

End PairwiseFacts.

(** ** [TensorDatasetWithTrans] *)

Section DatasetFacts.
Import TensorDatasetWithTrans.
Context {A : Type}.
Implicit Types (tensor first second : list A) (tensors : list (list A))
  (tr : option (A -> result A)).

Lemma py_index_0 {B} (x : B) (l : list B) : py_index (x :: l) 0 = Return x.
Proof.
  unfold py_index. simpl.
  destruct (Z.leb_spec (Z.pos (Pos.of_succ_nat (length l))) 0); [lia|reflexivity].
Qed.

Lemma py_index_1 {B} (x y : B) (l : list B) : py_index (x :: y :: l) 1 = Return y.
Proof.
  unfold py_index.
  assert ((Z.of_nat (length (x :: y :: l)) <=? 1) = false) as Hlen.
  { apply Z.leb_gt. simpl length. lia. }
  change (if 1 <? 0 then 1 + Z.of_nat (length (x :: y :: l)) else 1) with 1.
  rewrite Hlen. reflexivity.
Qed.

Lemma py_index_nil {B} (j : Z) : py_index (@nil B) j = Raise IndexError.
Proof.
  unfold py_index. destruct (_ || _); [reflexivity|].
  rewrite lookup_nil. reflexivity.
Qed.

(** Inside the sequence, with negative indices counting from the end,
    indexing gives an item. *)
Lemma py_index_in_range {B} (l : list B) (j : Z) :
  - Z.of_nat (length l) <= j < Z.of_nat (length l) ->
  exists x, py_index l j = Return x.
Proof.
  intros Hj. unfold py_index.
  set (j' := if j <? 0 then j + Z.of_nat (length l) else j).
  assert (0 <= j' < Z.of_nat (length l)) as Hj'.
  { unfold j'. destruct (Z.ltb_spec j 0); lia. }
  destruct (Z.ltb_spec j' 0); [lia|].
  destruct (Z.leb_spec (Z.of_nat (length l)) j'); [lia|]. simpl.
  destruct (lookup_lt_is_Some_2 l (Z.to_nat j')) as [x Hx]; [lia|].
  exists x. rewrite Hx. reflexivity.
Qed.

Lemma py_index_Return_range {B} (l : list B) (j : Z) (x : B) :
  py_index l j = Return x ->
  - Z.of_nat (length l) <= j < Z.of_nat (length l).
Proof.
  unfold py_index. intros Hx.
  destruct (Z.ltb_spec j 0).
  - destruct (Z.ltb_spec (j + Z.of_nat (length l)) 0); [discriminate|].
    destruct (Z.leb_spec (Z.of_nat (length l)) (j + Z.of_nat (length l)));
      [discriminate|]. lia.
  - destruct (Z.ltb_spec j 0); [lia|].
    destruct (Z.leb_spec (Z.of_nat (length l)) j); [discriminate|]. lia.
Qed.

(** Whether an index is accepted depends on the length alone. *)
Lemma py_index_same_length {B C} (l1 : list B) (l2 : list C) (j : Z) (x : B) :
  length l1 = length l2 -> py_index l1 j = Return x ->
  exists y, py_index l2 j = Return y.
Proof.
  intros Hlen Hx. apply py_index_in_range. rewrite <- Hlen.
  exact (py_index_Return_range l1 j x Hx).
Qed.

Lemma py_all_lengths first tensors :
  py_all (fun tensor => Return (Z.of_nat (length first) =? Z.of_nat (length tensor)))
    tensors
  = Return (forallb (fun tensor => Nat.eqb (length first) (length tensor)) tensors).
Proof.
  induction tensors as [|t ts IH]; simpl; [reflexivity|].
  destruct (Z.eqb_spec (Z.of_nat (length first)) (Z.of_nat (length t))) as [He|Hne].
  - rewrite IH. apply Nat2Z.inj in He. rewrite He, Nat.eqb_refl. reflexivity.
  - destruct (Nat.eqb_spec (length first) (length t)); [lia|reflexivity].
Qed.

Lemma init_checks_lengths first rest tr :
  init (first :: rest) tr
  = if forallb (fun tensor => Nat.eqb (length first) (length tensor)) rest
    then Return {| tensors := first :: rest; transform := tr |}
    else Raise AssertionError.
Proof.
  unfold init.
  assert (forall (l : list (list A)),
            py_all (fun tensor =>
                      f ← py_index (first :: rest) 0;
                      Return (Z.of_nat (length f) =? Z.of_nat (length tensor))) l
            = py_all (fun tensor =>
                        Return (Z.of_nat (length first) =? Z.of_nat (length tensor))) l)
    as Hsame.
  { induction l as [|t ts IH]; simpl; reflexivity. }
  rewrite Hsame, py_all_lengths. simpl. rewrite Nat.eqb_refl. reflexivity.
Qed.

(** X5: construction succeeds exactly when every tensor has as many
    slices as the first one, and fails with [AssertionError] otherwise; the
    object then holds the tensors and the transform as given. *)
Theorem init_accepts_equal_lengths first rest tr :
  (Forall (fun tensor => length tensor = length first) rest /\
   init (first :: rest) tr
   = Return {| tensors := first :: rest; transform := tr |}) \/
  (Exists (fun tensor => length tensor <> length first) rest /\
   init (first :: rest) tr = Raise AssertionError).
Proof.
  rewrite init_checks_lengths.
  destruct (forallb _ rest) eqn:Hall.
  - left. split; [|reflexivity].
    rewrite forallb_forall in Hall. apply Forall_forall. intros t Ht.
    apply list_elem_of_In, Hall in Ht. apply Nat.eqb_eq in Ht. lia.
  - right. split; [|reflexivity].
    apply Exists_exists.
    assert (~ Forall (fun tensor => length tensor = length first) rest) as Hn.
    { intros HF. rewrite <- not_true_iff_false in Hall. apply Hall.
      apply forallb_forall. intros t Ht. apply Nat.eqb_eq.
      rewrite Forall_forall in HF. symmetry. apply HF. by apply list_elem_of_In. }
    apply not_Forall_Exists in Hn; [|intros t; apply _].
    apply Exists_exists in Hn as (t & Ht & Hlen). exists t. split; done.
Qed.

(** X6: on a dataset that passed construction with at least two tensors,
    every index from [-len] to [len - 1] is served: the input and the
    target are the slices of the first and the second tensor at that
    index, and the transform is applied to the input alone. *)
Theorem getitem_in_range first second rest tr (d : t A) (index : Z) :
  init (first :: second :: rest) tr = Return d ->
  - Z.of_nat (length first) <= index < Z.of_nat (length first) ->
  len d = Return (Z.of_nat (length first)) /\
  exists x y,
    py_index first index = Return x /\
    py_index second index = Return y /\
    getitem d index
    = match tr with
      | Some f => x' ← f x; Return (x', y)
      | None => Return (x, y)
      end.
Proof.
  intros Hinit Hidx. rewrite init_checks_lengths in Hinit.
  destruct (forallb _ (second :: rest)) eqn:Hall; [|discriminate].
  injection Hinit as <-.
  simpl in Hall. apply andb_true_iff in Hall as [Hlen _].
  apply Nat.eqb_eq in Hlen. split.
  - unfold len. simpl tensors. rewrite py_index_0. reflexivity.
  - destruct (py_index_in_range first index Hidx) as [x Hx].
    destruct (py_index_same_length first second index x Hlen Hx) as [y Hy].
    exists x, y. repeat split; try done.
    unfold getitem. simpl tensors. simpl transform. rewrite py_index_0. simpl.
    rewrite Hx. simpl.
    rewrite py_index_1.
    destruct tr as [f|]; simpl.
    + destruct (f x); simpl; [rewrite Hy|]; reflexivity.
    + rewrite Hy. reflexivity.
Qed.

(** X7: the assertion of the constructor is vacuous on fewer than two
    tensors.  An empty tuple is accepted, and then [__len__] raises
    [IndexError]; a single tensor is accepted, and then no item can be read
    at any index. *)
Theorem fewer_than_two_tensors first tr (index : Z) :
  (exists d, init [] tr = Return d /\ len d = Raise IndexError /\
             getitem d index = Raise IndexError) /\
  (exists d, init [first] tr = Return d /\
             len d = Return (Z.of_nat (length first)) /\
             exists e, getitem d index = Raise e).
Proof.
  split.
  - eexists. split; [reflexivity|]. split; reflexivity.
  - eexists. split; [rewrite init_checks_lengths; reflexivity|]. split.
    + unfold len. simpl tensors. rewrite py_index_0. reflexivity.
    + unfold getitem. simpl tensors. simpl transform. rewrite py_index_0. simpl.
      destruct (py_index first index) as [x|e]; simpl; [|by eexists].
      destruct tr as [f|]; simpl.
      * destruct (f x) as [x'|e]; simpl; by eexists.
      * by eexists.
Qed.

End DatasetFacts.

(** ** [get_last_checkpoint] *)

Section CheckpointFacts.
Import Checkpoint.

Lemma length_append (a b : string) :
  String.length (a ++ b) = (String.length a + String.length b)%nat.
Proof.
  induction a as [|c a IH]; [reflexivity|].
  rewrite append_String. simpl. rewrite IH. reflexivity.
Qed.

Lemma starts_with_slash_nonempty (s : string) :
  starts_with_slash s = true -> s <> ""%string.
Proof. destruct s; [discriminate|discriminate]. Qed.

(** Joining a non-empty component never gives the empty path. *)
Lemma join_step_nonempty_l (path b : string) :
  path <> ""%string -> join_step path b <> ""%string.
Proof.
  intros Hp. unfold join_step.
  destruct (starts_with_slash b) eqn:Hb; [by apply starts_with_slash_nonempty|].
  destruct (_ || _); intros H; apply (f_equal String.length) in H;
    rewrite !length_append in H; destruct path; simpl in H; done.
Qed.

Lemma join_step_nonempty_r (path b : string) :
  b <> ""%string -> join_step path b <> ""%string.
Proof.
  intros Hb. unfold join_step.
  destruct (starts_with_slash b); [done|].
  destruct (_ || _); intros H; apply (f_equal String.length) in H;
    rewrite !length_append in H; destruct b; simpl in H; try done; lia.
Qed.

(** X8: [get_last_checkpoint] never raises, and the empty string it
    returns on failure cannot be mistaken for a path: it is returned
    exactly when the marker file could not be read. *)
Theorem get_last_checkpoint_empty_iff_unreadable
    (open_text : string -> result string) (save : string) (search : bool) :
  exists path,
    get_last_checkpoint open_text save search = Return path /\
    (path = ""%string <->
     exists e,
       open_text (join save [if search then "search" else "eval"; "last_checkpoint"]%string)
       = Raise e).
Proof.
  unfold get_last_checkpoint.
  destruct (open_text _) as [text|e]; simpl.
  - eexists. split; [reflexivity|]. split.
    + intros H. exfalso. revert H. unfold join. simpl.
      apply join_step_nonempty_l, join_step_nonempty_r.
      destruct search; discriminate.
    + intros [e He]. discriminate.
  - exists ""%string. split; [reflexivity|]. split; [|reflexivity].
    intros _. by exists e.
Qed.

Lemma readline_line (name rest : string) :
  Utils.contains (String "010"%char "") name = false ->
  readline (name ++ String "010"%char rest) = (name ++ String "010"%char "")%string.
Proof.
  induction name as [|c name IH]; intros Hno.
  - reflexivity.
  - rewrite !append_String. cbn [Utils.contains] in Hno.
    apply orb_false_iff in Hno as [Hc Hrest].
    cbn [readline].
    destruct (Ascii.eqb_spec c "010"%char) as [->|Hne].
    + simpl in Hc. destruct name; discriminate.
    + rewrite (IH Hrest). reflexivity.
Qed.

Lemma readline_no_newline (text : string) :
  Utils.contains (String "010"%char "") text = false -> readline text = text.
Proof.
  induction text as [|c text IH]; intros Hno; [reflexivity|].
  cbn [Utils.contains] in Hno. apply orb_false_iff in Hno as [Hc Hrest].
  cbn [readline].
  destruct (Ascii.eqb_spec c "010"%char) as [->|Hne].
  - simpl in Hc. destruct text; discriminate.
  - rewrite (IH Hrest). reflexivity.
Qed.

(** X9: the checkpoint name is the first line of the marker file as
    [readline] gives it, newline included: when the file holds a name
    followed by a newline, the path returned ends in that newline; only a
    file without any newline gives the name itself. *)
Theorem get_last_checkpoint_keeps_newline
    (open_text : string -> result string) (save name rest : string)
    (search : bool) :
  Utils.contains (String "010"%char "") name = false ->
  let sub := (if search then "search" else "eval")%string in
  (open_text (join save [sub; "last_checkpoint"%string])
     = Return (name ++ String "010"%char rest)%string ->
   get_last_checkpoint open_text save search
   = Return (join save [sub; (name ++ String "010"%char "")%string])) /\
  (open_text (join save [sub; "last_checkpoint"%string]) = Return name ->
   get_last_checkpoint open_text save search = Return (join save [sub; name])).
Proof.
  intros Hno sub. unfold get_last_checkpoint. fold sub.
  split; intros ->; simpl.
  - rewrite readline_line by exact Hno. reflexivity.
  - rewrite readline_no_newline by exact Hno. reflexivity.
Qed.

(** X10: a first line that starts with a slash replaces the experiment
    directory altogether: the path returned is that line, whatever
    [config.save] is. *)
Theorem get_last_checkpoint_absolute_name
    (open_text : string -> result string) (save text : string) (search : bool) :
  open_text (join save [if search then "search" else "eval"; "last_checkpoint"]%string)
    = Return text ->
  starts_with_slash text = true ->
  get_last_checkpoint open_text save search = Return (readline text).
Proof.
  intros Hopen Hslash. unfold get_last_checkpoint. rewrite Hopen. simpl.
  unfold join. simpl. unfold join_step at 1.
  assert (starts_with_slash (readline text) = true) as ->; [|reflexivity].
  destruct text as [|c text]; [discriminate|]. simpl in *.
  destruct (Ascii.eqb c "010"%char); exact Hslash.
Qed.

End CheckpointFacts.

(** ** [log_args] *)

Section LoggingFacts.
Import Logging.

Lemma str_mul_length (s : string) (k : Z) :
  String.length (str_mul s k) = (Z.to_nat k * String.length s)%nat.
Proof.
  unfold str_mul. induction (Z.to_nat k) as [|n IH]; [reflexivity|].
  simpl Nat.iter. rewrite length_append, IH. lia.
Qed.

(** X11: [log_args] logs one line per argument, in order, after what was
    logged before; a line starts with the name, ends with the value, and
    is padded between them to 50 characters, or not padded at all when name
    and value take 50 characters or more. *)
Theorem log_args_lines (args : list (string * string)) (w : list string) :
  exists lines,
    log_args args w = (Return VNone, w ++ lines) /\
    Forall2
      (fun a line =>
         exists pad,
           line = (fst a ++ pad ++ snd a)%string /\
           Z.of_nat (String.length line)
           = Z.max 50 (Z.of_nat (String.length (fst a) + String.length (snd a))))
      args lines.
Proof.
  revert w. induction args as [|[arg val] rest IH]; intros w.
  - exists []. split; [simpl; rewrite app_nil_r; reflexivity | constructor].
  - cbn [log_args]. unfold Call.bind at 1.
    destruct (IH (w ++ [(arg ++ str_mul "." (50 - Z.of_nat (String.length arg)
                                             - Z.of_nat (String.length val))
                         ++ val)%string])) as (lines & Hrun & Hall).
    eexists (_ :: lines). split.
    + rewrite Hrun. rewrite <- app_assoc. reflexivity.
    + constructor; [|exact Hall].
      eexists. split; [reflexivity|]. simpl fst. simpl snd.
      rewrite !length_append, str_mul_length. simpl String.length. lia.
Qed.

End LoggingFacts.

(** ** [AverageMeterGroup] *)

Section GroupFacts.
Import Utils AverageMeterGroup.
Implicit Types (g : AverageMeterGroup.t) (k : string) (m : NamedAverageMeter.t).

Lemma od_get_set_eq {V} k (v : V) od : od_get k (od_set k v od) = Some v.
Proof.
  induction od as [|[k' v'] od IH]; simpl.
  - rewrite String.eqb_refl. reflexivity.
  - destruct (String.eqb_spec k k') as [->|Hne]; simpl.
    + rewrite String.eqb_refl. reflexivity.
    + destruct (String.eqb_spec k k'); [done|]. exact IH.
Qed.

Lemma od_get_set_ne {V} k k' (v : V) od :
  k <> k' -> od_get k' (od_set k v od) = od_get k' od.
Proof.
  intros Hne. induction od as [|[k0 v0] od IH]; simpl.
  - destruct (String.eqb_spec k' k); [congruence|reflexivity].
  - destruct (String.eqb_spec k k0) as [->|Hk]; simpl.
    + destruct (String.eqb_spec k' k0); [congruence|reflexivity].
    + destruct (String.eqb_spec k' k0); [reflexivity|]. exact IH.
Qed.

Lemma od_get_None_keys {V} k (od : list (string * V)) :
  od_get k od = None <-> ~ In k (map fst od).
Proof.
  induction od as [|[k' v'] od IH]; simpl; [tauto|].
  destruct (String.eqb_spec k k') as [->|Hne].
  - split; [discriminate | intros H; exfalso; apply H; by left].
  - rewrite IH. split; [intros H [?|?]; [congruence|done] | tauto].
Qed.

Lemma od_get_In {V} k (v : V) od : od_get k od = Some v -> In (k, v) od.
Proof.
  induction od as [|[k' v'] od IH]; simpl; [discriminate|].
  destruct (String.eqb_spec k k') as [->|Hne].
  - intros [= ->]. by left.
  - intros H. right. by apply IH.
Qed.

(** The keys keep their order; a new key goes to the end. *)
Lemma od_set_keys {V} k (v : V) od :
  map fst (od_set k v od)
  = match od_get k od with
    | Some _ => map fst od
    | None => map fst od ++ [k]
    end.
Proof.
  induction od as [|[k' v'] od IH]; simpl; [reflexivity|].
  destruct (String.eqb_spec k k') as [->|Hne]; simpl; [reflexivity|].
  rewrite IH. destruct (od_get k od); reflexivity.
Qed.

Lemma od_set_Forall {V} (P : string * V -> Prop) k (v : V) od :
  Forall P od -> P (k, v) -> Forall P (od_set k v od).
Proof.
  intros Hod Hv. induction Hod as [|[k' v'] od Hx Hod IH]; simpl.
  - by constructor.
  - destruct (String.eqb_spec k k') as [->|Hne]; constructor; done.
Qed.

Lemma named_update_returns m (v : Q) (n : Z) :
  0 <= NamedAverageMeter.count m -> 1 <= n ->
  NamedAverageMeter.update m v n
  = (Return VNone,
     {| NamedAverageMeter.name := NamedAverageMeter.name m;
        NamedAverageMeter.fmt := NamedAverageMeter.fmt m;
        NamedAverageMeter.val := v;
        NamedAverageMeter.avg :=
          ((NamedAverageMeter.sum m + v * inject_Z n)
           / inject_Z (NamedAverageMeter.count m + n))%Q;
        NamedAverageMeter.sum := (NamedAverageMeter.sum m + v * inject_Z n)%Q;
        NamedAverageMeter.count := NamedAverageMeter.count m + n |}).
Proof.
  intros Hc Hn. unfold NamedAverageMeter.update.
  cbn [NamedAverageMeter.sum NamedAverageMeter.count].
  rewrite true_div_nonzero by lia. reflexivity.
Qed.

(** The meter a key stands for before a call: the one in the group, or a
    fresh one. *)
Lemma update_item_returns g k (v : Q) (n : Z) :
  Forall (fun e => 0 <= NamedAverageMeter.count (snd e)) (meters g) ->
  1 <= n ->
  let meter := match od_get k (meters g) with
               | Some m => m
               | None => NamedAverageMeter.init k ":4f"
               end in
  update_item g k v n
  = (Return VNone,
     {| meters := od_set k (NamedAverageMeter.update meter v n).2 (meters g) |}) /\
  0 <= NamedAverageMeter.count meter.
Proof.
  intros Hall Hn meter.
  assert (0 <= NamedAverageMeter.count meter) as Hc.
  { unfold meter. destruct (od_get k (meters g)) as [m|] eqn:Hget; [|simpl; lia].
    apply od_get_In in Hget. rewrite Forall_forall in Hall.
    apply (Hall (k, m)). by apply list_elem_of_In. }
  split; [|exact Hc].
  unfold update_item. fold meter.
  rewrite (named_update_returns meter v n Hc Hn). reflexivity.
Qed.

(** X12: one [update(data, n)] with [n >= 1] on a group whose counts are
    not negative returns normally; every key of [data] then holds the meter
    it had (a fresh one if the key is new) after one more
    [update(value, n)], and every other key holds the meter it had. *)
Theorem group_update_effect (data : list (string * Q)) :
  forall g (n : Z),
  1 <= n ->
  Forall (fun e => 0 <= NamedAverageMeter.count (snd e)) (meters g) ->
  NoDup (map fst data) ->
  exists g',
    update g data n = (Return VNone, g') /\
    (forall k v, In (k, v) data ->
       od_get k (meters g')
       = Some (NamedAverageMeter.update
                 (match od_get k (meters g) with
                  | Some m => m
                  | None => NamedAverageMeter.init k ":4f"
                  end) v n).2) /\
    (forall k, ~ In k (map fst data) -> od_get k (meters g') = od_get k (meters g)).
Proof.
  induction data as [|[k0 v0] rest IH]; intros g n Hn Hall Hdup.
  - exists g. split; [reflexivity|]. split; [intros k v []|reflexivity].
  - apply NoDup_cons in Hdup as [Hk0 Hdup]. cbn [update].
    destruct (update_item_returns g k0 v0 n Hall Hn) as [Hitem Hc].
    rewrite Hitem.
    set (meter := match od_get k0 (meters g) with
                  | Some m => m
                  | None => NamedAverageMeter.init k0 ":4f"
                  end) in *.
    set (g1 := {| meters := od_set k0 (NamedAverageMeter.update meter v0 n).2
                              (meters g) |}).
    destruct (IH g1 n Hn) as (g' & Hrun & Hin & Hout); [|exact Hdup|].
    { apply od_set_Forall; [exact Hall|].
      rewrite (named_update_returns meter v0 n Hc Hn). simpl. lia. }
    exists g'. split; [exact Hrun|]. split.
    + intros k v [[= <- <-]|Hkv].
      * rewrite Hout by (rewrite <- list_elem_of_In; exact Hk0).
        apply od_get_set_eq.
      * rewrite (Hin k v Hkv). simpl meters.
        assert (k0 <> k) as Hne.
        { intros <-. apply Hk0, list_elem_of_In, in_map_iff. by exists (k0, v). }
        rewrite od_get_set_ne by exact Hne. reflexivity.
    + intros k Hk. simpl in Hk.
      rewrite Hout by tauto. simpl meters.
      apply od_get_set_ne. tauto.
Qed.

Lemma update_item_keeps_ok g k (v : Q) (n : Z) :
  1 <= n ->
  Forall meter_ok (meters g) -> NoDup (map fst (meters g)) ->
  exists g',
    update_item g k v n = (Return VNone, g') /\
    Forall meter_ok (meters g') /\ NoDup (map fst (meters g')).
Proof.
  intros Hn Hok Hdup.
  assert (Forall (fun e => 0 <= NamedAverageMeter.count (snd e)) (meters g)) as Hall.
  { eapply Forall_impl; [exact Hok|]. intros e (_ & _ & Hpos & _). lia. }
  destruct (update_item_returns g k v n Hall Hn) as [Hitem Hc].
  eexists. split; [exact Hitem|]. simpl meters. split.
  - apply od_set_Forall; [exact Hok|].
    rewrite (named_update_returns _ v n Hc Hn).
    unfold meter_ok. simpl. repeat split; try lia.
    + destruct (od_get k (meters g)) as [m|] eqn:Hget; [|reflexivity].
      apply od_get_In in Hget. rewrite Forall_forall in Hok.
      apply list_elem_of_In, Hok in Hget. apply Hget.
    + destruct (od_get k (meters g)) as [m|] eqn:Hget; [|reflexivity].
      apply od_get_In in Hget. rewrite Forall_forall in Hok.
      apply list_elem_of_In, Hok in Hget. apply Hget.
  - rewrite od_set_keys.
    destruct (od_get k (meters g)) eqn:Hget; [exact Hdup|].
    apply NoDup_app. split; [exact Hdup|]. split.
    + intros x Hx Hin. apply list_elem_of_In in Hin. destruct Hin as [<-|[]].
      apply od_get_None_keys in Hget. apply Hget. by apply list_elem_of_In.
    + apply NoDup_singleton.
Qed.

Lemma update_keeps_ok (data : list (string * Q)) :
  forall g (n : Z),
  1 <= n ->
  Forall meter_ok (meters g) -> NoDup (map fst (meters g)) ->
  exists g',
    update g data n = (Return VNone, g') /\
    Forall meter_ok (meters g') /\ NoDup (map fst (meters g')).
Proof.
  induction data as [|[k v] rest IH]; intros g n Hn Hok Hdup.
  - exists g. by repeat split.
  - cbn [update].
    destruct (update_item_keeps_ok g k v n Hn Hok Hdup) as (g1 & -> & Hok1 & Hdup1).
    apply IH; done.
Qed.

(** X13: starting from an empty group, no sequence of [update(data, n)]
    calls with every [n >= 1] raises, and afterwards every meter of the
    group is named after its key, has the format [":4f"], has a positive
    count and holds [avg = sum / count]; no key is listed twice. *)
Theorem group_invariant (calls : list (list (string * Q) * Z)) :
  Forall (fun c => 1 <= snd c) calls ->
  exists g,
    updates init calls = (Return VNone, g) /\
    Forall meter_ok (meters g) /\ NoDup (map fst (meters g)).
Proof.
  assert (forall g0,
            Forall meter_ok (meters g0) -> NoDup (map fst (meters g0)) ->
            Forall (fun c => 1 <= snd c) calls ->
            exists g,
              updates g0 calls = (Return VNone, g) /\
              Forall meter_ok (meters g) /\ NoDup (map fst (meters g))) as Hgen.
  { induction calls as [|[data n] rest IH]; intros g0 Hok Hdup Hall.
    - exists g0. by repeat split.
    - apply Forall_cons in Hall as [Hn Hrest]. simpl in Hn. cbn [updates].
      destruct (update_keeps_ok data g0 n Hn Hok Hdup) as (g1 & -> & Hok1 & Hdup1).
      apply IH; done. }
  apply Hgen; [constructor | apply NoDup_nil; done].
Qed.

End GroupFacts.

(** ** [Cutout] *)

Section CutoutFacts.
Import Cutout.

Lemma np_clip_bounds (a h : Z) : 0 <= h -> 0 <= np_clip a 0 h <= h.
Proof. unfold np_clip. lia. Qed.

(** Inside the image, the clipped bounds cut the same rows as the bounds
    before clipping. *)
Lemma mask_unclipped (self : t) (h w y x i j : Z) :
  0 <= i < h -> 0 <= j < w ->
  (let '(y1, y2, x1, x2) := hole self h w y x in mask h w y1 y2 x1 x2 i j)
  = if (y - length self / 2 <=? i) && (i <? y + length self / 2)
       && (x - length self / 2 <=? j) && (j <? x + length self / 2)
    then 0%Q else 1%Q.
Proof.
  intros Hi Hj. unfold hole, mask.
  rewrite !slice_bound_inside by (apply np_clip_bounds; lia).
  unfold np_clip.
  repeat match goal with
         | |- context [Z.leb ?a ?b] => destruct (Z.leb_spec a b)
         | |- context [Z.ltb ?a ?b] => destruct (Z.ltb_spec a b)
         end; simpl; try reflexivity; lia.
Qed.

(** X14: when the coin comes up, [Cutout] returns the image with the same
    shape, zero inside the square of side [2 * (length // 2)] around the
    drawn centre and unchanged everywhere else: clipping only cuts the
    square at the border, and an odd [length] cuts one pixel less than it
    says. *)
Theorem cutout_zeroes_square (self : t) (coin y x : Z) (img : image) :
  coin <> 0 -> 0 < height img -> 0 < width img ->
  exists img',
    call self coin y x img = Return img' /\
    channels img' = channels img /\ height img' = height img /\
    width img' = width img /\
    forall c i j, 0 <= i < height img -> 0 <= j < width img ->
      (pixel img' c i j ==
       if (y - length self / 2 <=? i) && (i <? y + length self / 2)
          && (x - length self / 2 <=? j) && (j <? x + length self / 2)
       then 0 else pixel img c i j)%Q.
Proof.
  intros Hcoin Hh Hw. unfold call.
  destruct (Z.eqb_spec coin 0); [done|].
  destruct (Z.leb_spec (height img) 0); [lia|].
  destruct (Z.leb_spec (width img) 0); [lia|].
  pose proof (mask_unclipped self (height img) (width img) y x) as Hmask.
  destruct (hole self (height img) (width img) y x) as [[[y1 y2] x1] x2].
  eexists. split; [reflexivity|]. repeat split.
  intros c i j Hi Hj. simpl. rewrite (Hmask i j Hi Hj).
  destruct (_ && _); ring.
Qed.

(** X15: a [Cutout] of length 1 or less (zero and negative lengths
    included) never changes a pixel, whatever is drawn. *)
Theorem cutout_short_length_is_identity (self : t) (coin y x : Z)
    (img img' : image) :
  length self <= 1 ->
  call self coin y x img = Return img' ->
  channels img' = channels img /\ height img' = height img /\
  width img' = width img /\
  forall c i j, 0 <= i < height img -> 0 <= j < width img ->
    (pixel img' c i j == pixel img c i j)%Q.
Proof.
  intros Hlen Hcall. unfold call in Hcall.
  destruct (Z.eqb_spec coin 0).
  - injection Hcall as <-. repeat split; try (intros; reflexivity).
  - destruct (Z.leb_spec (height img) 0); [discriminate|].
    destruct (Z.leb_spec (width img) 0); [discriminate|].
    pose proof (mask_unclipped self (height img) (width img) y x) as Hmask.
    destruct (hole self (height img) (width img) y x) as [[[y1 y2] x1] x2].
    injection Hcall as <-. repeat split.
    intros c i j Hi Hj. simpl. rewrite (Hmask i j Hi Hj).
    assert (length self / 2 < 1) as Hhalf.
    { apply Z.div_lt_upper_bound; lia. }
    destruct (Z.leb_spec (y - length self / 2) i);
      destruct (Z.ltb_spec i (y + length self / 2)); simpl; try ring.
    lia.
Qed.

End CutoutFacts.

(** ** More on the loaders, the folds, the scores and the meters *)

Section SliceFacts.



End SliceFacts.

Section LoaderSplitFacts.
Import Utils.
Context {W Dataset Transform Sampler Queue : Type}.
Variable B : @backend W Dataset Transform Sampler Queue.


End LoaderSplitFacts.

Section KFoldEdgeFacts.
Import Utils.

Lemma concat_map_nil {A C} (f : A -> list C) (l : list A) :
  Forall (fun a => f a = []) l -> concat (map f l) = [].
Proof.
  induction 1 as [|a l Ha _ IH]; simpl; [reflexivity|].
  rewrite Ha, IH. reflexivity.
Qed.

Lemma range_snoc (k : Z) : 0 < k -> range k = range (k - 1) ++ [k - 1].
Proof.
  intros Hk. unfold range.
  replace k with ((k - 1) + 1) at 1 by lia.
  rewrite seqZ_app by lia. f_equal.
Qed.

(** X17: with more folds than examples ([0 <= n < k]) the fold size is
    zero: each of the first [k - 1] pairs trains on all [n] indices and
    validates on none, and the last pair trains on none and validates on
    all of them. *)
Theorem generate_kfold_more_folds_than_examples (n k : Z) :
  0 <= n < k -> 2 <= k ->
  generate_kfold n k
  = Return (replicate (Z.to_nat (k - 1)) (range n, []) ++ [([], range n)]).
Proof.
  intros Hn Hk. rewrite generate_kfold_closed_form by lia.
  assert (n / k = 0) as Hfs by (apply Z.div_small; lia).
  assert (forall j, j < k - 1 -> fold_interval n k j = []) as Hfirst.
  { intros j Hj. unfold fold_interval.
    destruct (Z.ltb_spec j (k - 1)); [|lia]. rewrite Hfs. reflexivity. }
  assert (fold_interval n k (k - 1) = range n) as Hlast.
  { unfold fold_interval. destruct (Z.ltb_spec (k - 1) (k - 1)); [lia|].
    rewrite Hfs. unfold range. f_equal; lia. }
  assert (forall i,
            concat (map (fold_interval n k)
                      (List.filter (fun j => negb (j =? i)) (range k)))
            = if i =? k - 1 then [] else range n) as Htrain.
  { intros i. rewrite (range_snoc k) by lia.
    rewrite List.filter_app, map_app, concat_app.
    rewrite concat_map_nil.
    - simpl. destruct (Z.eqb_spec (k - 1) i) as [<-|Hne]; simpl.
      + rewrite Z.eqb_refl. reflexivity.
      + destruct (Z.eqb_spec i (k - 1)); [lia|].
        rewrite Hlast, app_nil_r. reflexivity.
    - apply Forall_forall. intros j Hj.
      apply list_elem_of_In, filter_In in Hj as [Hj _].
      apply list_elem_of_In, elem_of_range in Hj. apply Hfirst. lia. }
  assert (forall l, Forall (fun j => j < k - 1) l ->
            map (fun i =>
                   (concat (map (fold_interval n k)
                              (List.filter (fun j => negb (j =? i)) (range k))),
                    fold_interval n k i)) l
            = replicate (List.length l) (range n, [])) as Hpairs.
  { induction 1 as [|j l Hj _ IH]; simpl; [reflexivity|].
    rewrite Htrain, IH, Hfirst by exact Hj.
    destruct (Z.eqb_spec j (k - 1)); [lia|reflexivity]. }
  f_equal. rewrite (range_snoc k) at 1 by lia. rewrite map_app. simpl.
  rewrite Htrain, Z.eqb_refl, Hlast. f_equal.
  rewrite Hpairs, length_range; [reflexivity|].
  apply Forall_forall. intros j Hj. apply elem_of_range in Hj. lia.
Qed.

End KFoldEdgeFacts.

(** ** [cross_validation]: the metric names *)

Section MetricFacts.
Import Utils.
Context {X Y Pred Score P : Type}.
Variable T : @toolkit X Y Pred Score P.

(** The metric names the chain of [score] knows. *)
Lemma score_unknown_metric (score_metric : string) (yval : list Y) (ypred : Pred) :
  ~ In score_metric
      ["pearson"; "mae"; "rmse"; "spearman"; "kendalltau"; "kt_2dec"; "kt_1dec"]%string ->
  score T score_metric yval ypred = Raise (UnboundLocalError "score_i").
Proof.
  intros Hnot. unfold score.
  repeat match goal with
         | |- context [String.eqb ?a ?b] =>
             destruct (String.eqb_spec a b) as [Heq|_];
             [exfalso; apply Hnot; rewrite Heq; simpl; tauto|]
         end.
  reflexivity.
Qed.

(** X18: the metric name is checked only inside the loop.  Under a name
    that is none of the seven known ones, [cross_validation] on at least
    one split never returns a score: it raises, and when indexing, [fit],
    [query] and the ensemble mean all succeed on the first split, what it
    raises is [UnboundLocalError] for [score_i], after the predictor has
    been fitted.  On no split at all the name is not looked at. *)
Theorem cross_validation_unknown_metric_raises (xtrain : list X) (ytrain : list Y)
    (predictor : P) (score_metric : string)
    (train_indices validation_indices : list Z)
    (rest : list (list Z * list Z)) :
  ~ In score_metric
      ["pearson"; "mae"; "rmse"; "spearman"; "kendalltau"; "kt_2dec"; "kt_1dec"]%string ->
  (exists e,
     cross_validation T xtrain ytrain predictor
       ((train_indices, validation_indices) :: rest) score_metric = Raise e) /\
  (forall xs ys predictor' ypred ypred',
     comprehension (py_index xtrain) train_indices = Return xs ->
     comprehension (py_index ytrain) train_indices = Return ys ->
     fit T predictor xs ys = Return predictor' ->
     query T predictor' xs = Return ypred ->
     (if 1 <? shape_len T ypred then np_mean_axis0 T ypred else Return ypred)
       = Return ypred' ->
     cross_validation T xtrain ytrain predictor
       ((train_indices, validation_indices) :: rest) score_metric
     = Raise (UnboundLocalError "score_i")) /\
  cross_validation T xtrain ytrain predictor [] score_metric
  = (m ← np_mean T []; Return (m, predictor)).
Proof.
  intros Hnot.
  assert (forall xs ys predictor' ypred ypred',
            comprehension (py_index xtrain) train_indices = Return xs ->
            comprehension (py_index ytrain) train_indices = Return ys ->
            fit T predictor xs ys = Return predictor' ->
            query T predictor' xs = Return ypred ->
            (if 1 <? shape_len T ypred then np_mean_axis0 T ypred else Return ypred)
              = Return ypred' ->
            cross_validation T xtrain ytrain predictor
              ((train_indices, validation_indices) :: rest) score_metric
            = Raise (UnboundLocalError "score_i")) as Hgood.
  { intros xs ys p' ypred ypred' Hxs Hys Hfit Hq Hmean.
    unfold cross_validation. cbn [cross_validation_loop].
    rewrite cross_validation_split_on_training.
    rewrite Hxs, Hys. simpl. rewrite Hfit. simpl. rewrite Hq. simpl.
    rewrite Hmean. simpl. rewrite score_unknown_metric by exact Hnot.
    reflexivity. }
  split; [|split; [exact Hgood|reflexivity]].
  unfold cross_validation. cbn [cross_validation_loop].
  rewrite cross_validation_split_on_training.
  destruct (comprehension (py_index xtrain) train_indices) as [xs|e]; simpl;
    [|by eexists].
  destruct (comprehension (py_index ytrain) train_indices) as [ys|e]; simpl;
    [|by eexists].
  destruct (fit T predictor xs ys) as [p'|e]; simpl; [|by eexists].
  destruct (query T p' xs) as [ypred|e]; simpl; [|by eexists].
  destruct (if 1 <? shape_len T ypred then np_mean_axis0 T ypred else Return ypred)
    as [ypred'|e]; simpl; [|by eexists].
  rewrite score_unknown_metric by exact Hnot. simpl. by eexists.
Qed.

End MetricFacts.

(** ** [count_parameters_in_MB]: how counts add up *)

Section CountFacts.
Import Utils.



End CountFacts.

(** ** The meters: averages and the two classes *)

Section MeterMoreFacts.
Import Utils Meters.
Local Open Scope Q_scope.



Lemma update_plain_part (m : NamedAverageMeter.t) (v : Q) (n : Z) :
  AverageMeter.update (plain_part m) v n
  = ((NamedAverageMeter.update m v n).1,
     plain_part (NamedAverageMeter.update m v n).2).
Proof.
  unfold AverageMeter.update, NamedAverageMeter.update, plain_part.
  cbn [AverageMeter.sum AverageMeter.cnt AverageMeter.avg
       NamedAverageMeter.sum NamedAverageMeter.count NamedAverageMeter.avg].
  destruct (true_div _ _); reflexivity.
Qed.

(** X21: the two meter classes keep the same books: fed the same calls
    from states that agree on [avg], [sum] and the count, an
    [AverageMeter] and a [NamedAverageMeter] end with the same outcome (the
    same exception, if any) and again agree on [avg], [sum] and the
    count. *)
Theorem meters_agree (calls : list (Q * Z)) :
  forall named : NamedAverageMeter.t,
  AverageMeter.updates (plain_part named) calls
  = ((NamedAverageMeter.updates named calls).1,
     plain_part (NamedAverageMeter.updates named calls).2).
Proof.
  induction calls as [|[v n] rest IH]; intros named; [reflexivity|].
  cbn [AverageMeter.updates NamedAverageMeter.updates].
  rewrite update_plain_part.
  destruct (NamedAverageMeter.update named v n) as [[r|e] named']; simpl.
  - apply IH.
  - reflexivity.
Qed.

End MeterMoreFacts.

(** ** [compute_scores]: the precision of the top [k] *)

Section ScoreFacts.
Import Scores.

Lemma insert_Permutation (x : Q) (l : list Q) : Permutation (insert x l) (x :: l).
Proof.
  induction l as [|y l IH]; simpl; [reflexivity|].
  destruct (Qle_bool x y); [reflexivity|].
  rewrite IH. apply perm_swap.
Qed.

Lemma sorted_Permutation (l : list Q) : Permutation (sorted l) l.
Proof.
  induction l as [|x l IH]; simpl; [reflexivity|].
  rewrite insert_Permutation, IH. reflexivity.
Qed.

Lemma insert_sorted (x : Q) (l : list Q) :
  StronglySorted Qle l -> StronglySorted Qle (insert x l).
Proof.
  induction 1 as [|y l Hs IH Hy]; simpl.
  - repeat constructor.
  - destruct (Qle_bool x y) eqn:Hxy.
    + apply Qle_bool_iff in Hxy. constructor; [by constructor|].
      constructor; [exact Hxy|].
      eapply Forall_impl; [exact Hy|]. intros z Hz. simpl in Hz.
      eapply Qle_trans; eauto.
    + constructor; [exact IH|].
      assert (y <= x)%Q as Hyx.
      { destruct (Qlt_le_dec y x) as [Hlt|Hle]; [by apply Qlt_le_weak|].
        apply Qle_bool_iff in Hle. congruence. }
      rewrite insert_Permutation. by constructor.
Qed.

Lemma sorted_sorted (l : list Q) : StronglySorted Qle (sorted l).
Proof.
  induction l as [|x l IH]; simpl; [constructor | by apply insert_sorted].
Qed.

(** In an ascending list nothing up to a position is greater than the
    value at that position. *)
Lemma ascending_prefix_not_gt (s : list Q) :
  StronglySorted Qle s ->
  forall (pos : nat) (t : Q), s !! pos = Some t ->
  List.filter (fun y => gt y t) s
  = List.filter (fun y => gt y t) (drop (S pos) s).
Proof.
  induction 1 as [|x s Hs IH Hx]; intros pos t Hpos; [done|].
  destruct pos as [|pos]; simpl in Hpos.
  - injection Hpos as ->. simpl.
    unfold gt at 1. rewrite (proj2 (Qle_bool_iff t t)) by apply Qle_refl.
    reflexivity.
  - simpl. rewrite (IH pos t Hpos).
    assert (x <= t)%Q as Hxt.
    { rewrite Forall_forall in Hx. apply Hx, list_elem_of_lookup. eauto. }
    unfold gt at 1. rewrite (proj2 (Qle_bool_iff x t) Hxt). reflexivity.
Qed.

Lemma filter_length_Permutation {A} (f : A -> bool) (l1 l2 : list A) :
  Permutation l1 l2 ->
  length (List.filter f l1) = length (List.filter f l2).
Proof.
  induction 1 as [|x l1 l2 _ IH|x y l|l1 l2 l3 _ IH1 _ IH2]; simpl.
  - reflexivity.
  - destruct (f x); simpl; congruence.
  - destruct (f x), (f y); reflexivity.
  - congruence.
Qed.

Lemma py_sum_bool_count (mask : list bool) :
  py_sum_bool mask = Z.of_nat (length (List.filter id mask)).
Proof.
  unfold py_sum_bool.
  assert (forall acc,
            fold_left (fun acc (b : bool) => if b then acc + 1 else acc) mask acc
            = acc + Z.of_nat (length (List.filter id mask))) as H.
  { induction mask as [|b mask IH]; intros acc; simpl; [lia|].
    rewrite IH. destruct b; simpl; lia. }
  rewrite H. lia.
Qed.

Lemma filter_id_map {A} (f : A -> bool) (l : list A) :
  length (List.filter id (map f l)) = length (List.filter f l).
Proof.
  induction l as [|x l IH]; simpl; [reflexivity|].
  change (id (f x)) with (f x). destruct (f x); simpl; congruence.
Qed.

Lemma py_index_from_end {A} (l : list A) (j : Z) (x : A) :
  j < 0 -> l !! Z.to_nat (j + Z.of_nat (length l)) = Some x ->
  0 <= j + Z.of_nat (length l) ->
  py_index l j = Return x.
Proof.
  intros Hj Hl Hpos. unfold py_index.
  apply lookup_lt_Some in Hl as Hlt.
  destruct (Z.ltb_spec j 0); [|lia].
  destruct (Z.ltb_spec (j + Z.of_nat (length l)) 0); [lia|].
  destruct (Z.leb_spec (Z.of_nat (length l)) (j + Z.of_nat (length l))); [lia|].
  cbn [orb]. rewrite Hl. reflexivity.
Qed.

(** The mask is always computed, has one entry per value, and marks the
    values above the threshold: no more than [k] of them. *)
Lemma top_mask_at_most_k (values : list Q) (k : Z) :
  0 <= k ->
  exists mask,
    top_mask values k = Return mask /\
    length mask = length values /\
    Z.of_nat (length (List.filter id mask)) <= k.
Proof.
  intros Hk. destruct values as [|v0 vs].
  - exists []. repeat split. simpl. exact Hk.
  - set (values := v0 :: vs).
    set (n := Z.of_nat (length values)).
    assert (0 < n) as Hn by (unfold n; simpl; lia).
    set (pos := Z.to_nat (Z.max (- n) (- k - 1) + n)).
    assert (length (sorted values) = length values) as Hlen.
    { apply Permutation_length, sorted_Permutation. }
    destruct (lookup_lt_is_Some_2 (sorted values) pos) as [t Ht].
    { rewrite Hlen. unfold pos. fold n. lia. }
    assert (py_index (sorted values) (Z.max (- n) (- k - 1)) = Return t) as Hidx.
    { apply py_index_from_end; rewrite ?Hlen; fold n; [lia | exact Ht | lia]. }
    exists (map (fun y => gt y t) values). split; [|split].
    + unfold top_mask. fold values. fold n.
      apply comprehension_map. intros y _. rewrite Hidx. reflexivity.
    + apply length_map.
    + rewrite filter_id_map.
      rewrite <- (filter_length_Permutation _ _ _ (sorted_Permutation values)).
      rewrite (ascending_prefix_not_gt _ (sorted_sorted values) pos t Ht).
      pose proof (filter_length (fun y => gt y t) (drop (S pos) (sorted values))) as Hf.
      rewrite length_drop, Hlen in Hf. fold n in Hf. unfold pos in *. lia.
Qed.

Lemma count_and_le_l (a0 : bool) (b : list bool) :
  (length (List.filter id (map (andb a0) b)) <= length (List.filter id b))%nat.
Proof.
  induction b as [|x b IH]; simpl; [lia|].
  change (id (a0 && x)) with (a0 && x). change (id x) with x.
  destruct a0, x; simpl; lia.
Qed.

Lemma count_and_le_r (b0 : bool) (a : list bool) :
  (length (List.filter id (map (fun x => andb x b0) a))
   <= length (List.filter id a))%nat.
Proof.
  induction a as [|x a IH]; simpl; [lia|].
  change (id (x && b0)) with (x && b0). change (id x) with x.
  destruct b0, x; simpl; lia.
Qed.

Lemma count_zip_and_le (a : list bool) :
  forall b,
  (length (List.filter id (zip_with andb a b)) <= length (List.filter id a))%nat.
Proof.
  induction a as [|x a IH]; intros [|y b]; simpl; try lia.
  specialize (IH b). destruct x, y; simpl; lia.
Qed.

Lemma np_and_count (a b mask : list bool) (k : nat) :
  np_and a b = Return mask ->
  (length (List.filter id a) <= k)%nat ->
  (length (List.filter id b) <= k)%nat ->
  (length (List.filter id mask) <= k)%nat.
Proof.
  intros Hand Ha Hb. unfold np_and in Hand.
  destruct a as [|a0 [|a1 a']]; [discriminate| |].
  - destruct b as [|b0 b']; [discriminate|]. injection Hand as <-.
    exact (Nat.le_trans _ _ _ (count_and_le_l a0 (b0 :: b')) Hb).
  - destruct b as [|b0 [|b1 b']]; [discriminate| |].
    + injection Hand as <-.
      exact (Nat.le_trans _ _ _ (count_and_le_r b0 (a0 :: a1 :: a')) Ha).
    + destruct (Nat.eqb _ _); [|discriminate]. injection Hand as <-.
      exact (Nat.le_trans _ _ _
               (count_zip_and_le (a0 :: a1 :: a') (b0 :: b1 :: b')) Ha).
Qed.

(** X22: whenever the precision of the top [k] is computed ([k] is 10 or
    20 in the code, any positive [k] here), it is a fraction between 0
    and 1: each mask marks at most [k] values, so at most [k] are marked
    in both. *)
Theorem precision_is_a_fraction (ytest test_pred : list Q) (k : Z) (p : Q) :
  0 < k ->
  precision ytest test_pred k = Return p ->
  (0 <= p <= 1)%Q.
Proof.
  intros Hk Hp. unfold precision in Hp.
  destruct (top_mask_at_most_k ytest k) as (m1 & He1 & _ & Hm1); [lia|].
  destruct (top_mask_at_most_k test_pred k) as (m2 & He2 & _ & Hm2); [lia|].
  rewrite He1, He2 in Hp. simpl in Hp.
  destruct (np_and m1 m2) as [both|e] eqn:Hand; [|discriminate].
  simpl in Hp. injection Hp as <-.
  pose proof (np_and_count m1 m2 both (Z.to_nat k) Hand ltac:(lia) ltac:(lia)) as Hc.
  rewrite py_sum_bool_count.
  assert (0 < inject_Z k)%Q as Hkq.
  { change (inject_Z 0 < inject_Z k)%Q. rewrite <- Zlt_Qlt. exact Hk. }
  split.
  - apply Qle_shift_div_l; [exact Hkq|]. rewrite Qmult_0_l.
    change (inject_Z 0 <= inject_Z (Z.of_nat (length (List.filter id both))))%Q.
    rewrite <- Zle_Qle. lia.
  - apply Qle_shift_div_r; [exact Hkq|]. rewrite Qmult_1_l.
    rewrite <- Zle_Qle. lia.
Qed.

(** X23: with as many predictions as targets, and at least one, the
    precision is always computed: neither the index into the sorted
    values nor the combination of the masks raises. *)
Theorem precision_is_computed (ytest test_pred : list Q) (k : Z) :
  0 <= k ->
  length ytest = length test_pred -> ytest <> [] ->
  exists p, precision ytest test_pred k = Return p.
Proof.
  intros Hk Hlen Hne. unfold precision.
  destruct (top_mask_at_most_k ytest k Hk) as (m1 & -> & Hl1 & _).
  destruct (top_mask_at_most_k test_pred k Hk) as (m2 & -> & Hl2 & _).
  simpl.
  assert (length m1 = length m2) as Hm by congruence.
  assert (m1 <> []) as Hm1.
  { intros ->. destruct ytest; [done|discriminate]. }
  unfold np_and.
  destruct m1 as [|a0 [|a1 a']]; [done| |].
  - destruct m2 as [|b0 b']; [discriminate|]. simpl. by eexists.
  - destruct m2 as [|b0 [|b1 b']]; [discriminate|discriminate|].
    rewrite Hm, Nat.eqb_refl. simpl. by eexists.
Qed.

End ScoreFacts.

(** ** [generate_kfold]: every index exactly once *)

Section KFoldPermutationFacts.
Import Utils.

Lemma filter_ne_absent (i : Z) (l : list Z) :
  ~ In i l -> List.filter (fun j => negb (j =? i)) l = l.
Proof.
  induction l as [|j l IH]; intros Hnot; simpl; [reflexivity|].
  destruct (Z.eqb_spec j i) as [->|_]; simpl.
  - exfalso. apply Hnot. by left.
  - rewrite IH; [reflexivity|]. intros H. apply Hnot. by right.
Qed.

(** [range(k)] around one of its members. *)
Lemma range_around (k i : Z) :
  0 <= i < k -> range k = seqZ 0 i ++ [i] ++ seqZ (i + 1) (k - i - 1).
Proof.
  intros Hi. unfold range.
  replace k with (i + (1 + (k - i - 1))) at 1 by lia.
  rewrite seqZ_app by lia. f_equal.
  rewrite seqZ_app by lia. f_equal.
Qed.

(** The first [j] intervals, end to end, are the first [j * (n // k)]
    indices. *)
Lemma first_intervals (n k : Z) (j : nat) :
  0 <= n -> 2 <= k -> Z.of_nat j <= k - 1 ->
  concat (map (fold_interval n k) (seqZ 0 (Z.of_nat j)))
  = seqZ 0 (Z.of_nat j * (n / k)).
Proof.
  intros Hn Hk. destruct (fold_size_bounds n k Hn Hk) as [Hfs _].
  induction j as [|j IH]; intros Hj; [reflexivity|].
  rewrite seqZ_S, map_app, concat_app, IH by lia. simpl.
  rewrite app_nil_r. unfold fold_interval.
  destruct (Z.ltb_spec (0 + Z.of_nat j) (k - 1)); [|lia].
  replace (Z.of_nat (S j) * (n / k))
    with (Z.of_nat j * (n / k) + n / k) by lia.
  rewrite seqZ_app by nia. repeat f_equal; lia.
Qed.

Lemma all_intervals (n k : Z) :
  0 <= n -> 2 <= k ->
  concat (map (fold_interval n k) (range k)) = range n.
Proof.
  intros Hn Hk. destruct (fold_size_bounds n k Hn Hk) as [Hfs Hle].
  rewrite (range_snoc k) by lia. rewrite map_app, concat_app.
  replace (k - 1) with (Z.of_nat (Z.to_nat (k - 1))) at 1 by lia.
  unfold range at 1. rewrite first_intervals by lia. simpl.
  rewrite app_nil_r. unfold fold_interval.
  destruct (Z.ltb_spec (k - 1) (k - 1)); [lia|].
  rewrite Z2Nat.id by lia. unfold range.
  symmetry.
  replace n with ((k - 1) * (n / k) + (n - (k - 1) * (n / k))) at 1 by lia.
  rewrite seqZ_app by nia. reflexivity.
Qed.

(** X24: for [n >= 0] and [k >= 2], the training indices of a pair
    followed by its validation indices are a rearrangement of
    [0 .. n-1]: every index is there exactly once, none is repeated. *)
Theorem generate_kfold_each_index_once (n k : Z) :
  0 <= n -> 2 <= k ->
  exists kfold_indices,
    generate_kfold n k = Return kfold_indices /\
    forall tr va, In (tr, va) kfold_indices ->
      Permutation (tr ++ va) (range n) /\ NoDup (tr ++ va).
Proof.
  intros Hn Hk. eexists. split; [apply generate_kfold_closed_form; lia|].
  intros tr va Hin. apply in_map_iff in Hin as (i & Heq & Hi).
  apply list_elem_of_In, elem_of_range in Hi. injection Heq as <- <-.
  assert (Permutation
            (concat (map (fold_interval n k)
                       (List.filter (fun j => negb (j =? i)) (range k)))
             ++ fold_interval n k i)
            (range n)) as Hperm.
  { rewrite <- (all_intervals n k Hn Hk).
    rewrite (range_around k i Hi).
    rewrite !List.filter_app. simpl. rewrite Z.eqb_refl. simpl.
    rewrite !filter_ne_absent.
    - rewrite !map_app, !concat_app. simpl.
      rewrite <- app_assoc. apply Permutation_app_head, Permutation_app_comm.
    - intros H. apply list_elem_of_In, elem_of_seqZ in H. lia.
    - intros H. apply list_elem_of_In, elem_of_seqZ in H. lia. }
  split; [exact Hperm|].
  rewrite Hperm. apply NoDup_seqZ.
Qed.

End KFoldPermutationFacts.

(** ** More statements at concrete inputs *)

Section MoreRuns.
Import Utils Instances MoreInstances.

Example iter_flatten_nested :
  Nesting.iter_flatten
    [Nesting.Atom 1; Nesting.PyList [Nesting.Atom 2;
       Nesting.PyTuple [Nesting.Atom 3; Nesting.PyList []]]; Nesting.Atom 4]
  = [1; 2; 3; 4].
Proof. reflexivity. Qed.

Example pairwise_five : Pairwise.pairwise [1; 2; 3; 4; 5] = [(1, 2); (3, 4)].
Proof. reflexivity. Qed.

Example join_paths :
  Checkpoint.join "out" ["search"; "last_checkpoint"]%string
    = "out/search/last_checkpoint"%string /\
  Checkpoint.join "out/" ["eval"]%string = "out/eval"%string /\
  Checkpoint.join "" ["eval"]%string = "eval"%string /\
  Checkpoint.join "out" ["/abs"; "x"]%string = "/abs/x"%string.
Proof. repeat split. Qed.

Example last_checkpoint_runs :
  Checkpoint.get_last_checkpoint marker_files "out" true
    = Return ("out/search/model_0000010.pth" ++ newline)%string /\
  Checkpoint.get_last_checkpoint marker_files "out" false
    = Return "out/eval/model_final.pth"%string /\
  Checkpoint.get_last_checkpoint marker_files "run" true
    = Return "/ckpt/model.pth"%string /\
  Checkpoint.get_last_checkpoint marker_files "nowhere" true = Return ""%string.
Proof. repeat split. Qed.

Example log_args_two :
  Logging.log_args [("seed", "0"); ("dataset", "cifar10")]%string []
  = (Return VNone,
     ["seed.............................................0";
      "dataset....................................cifar10"]%string).
Proof. vm_compute. reflexivity. Qed.

Example dataset_items :
  (d ← TensorDatasetWithTrans.init [[10; 20; 30]; [1; 2; 3]] None;
   TensorDatasetWithTrans.getitem d (-1)) = Return (30, 3) /\
  (d ← TensorDatasetWithTrans.init [[10; 20; 30]; [1; 2; 3]] None;
   TensorDatasetWithTrans.getitem d 3) = Raise IndexError /\
  TensorDatasetWithTrans.init [[10; 20; 30]; [1; 2]] None = Raise AssertionError.
Proof. repeat split. Qed.

Example group_two_updates :
  map fst
    (AverageMeterGroup.meters
       (AverageMeterGroup.updates AverageMeterGroup.init
          [([("loss", 1 # 2); ("acc", 9 # 10)]%string, 4);
           ([("acc", 1 # 1); ("lr", 1 # 100)]%string, 2)]).2)
  = ["loss"; "acc"; "lr"]%string.
Proof. reflexivity. Qed.

Example cutout_centre_and_corner :
  match Cutout.call {| Cutout.length := 2; Cutout.prob := 1 |} 1 0 3 white_image with
  | Return img =>
      [Cutout.pixel img 0 0 3; Cutout.pixel img 0 0 2; Cutout.pixel img 0 1 3;
       Cutout.pixel img 0 0 1]
  | Raise _ => []
  end = [(1 * 0)%Q; (1 * 0)%Q; (1 * 1)%Q; (1 * 1)%Q].
Proof. reflexivity. Qed.

Example precision_of_three :
  Scores.precision [3 # 1; 1 # 1; 2 # 1] [5 # 1; 4 # 1; 6 # 1] 10
  = Return (inject_Z 2 / inject_Z 10)%Q.
Proof. reflexivity. Qed.

Example precision_of_nothing :
  Scores.precision [] [] 10 = Raise (Exception "TypeError").
Proof. reflexivity. Qed.

End MoreRuns.

(** ** The hypotheses met *)

Section MoreWitnesses.
Import Utils Instances MoreInstances.

(** A dataset of two tensors of three slices, read at the last index. *)
Lemma getitem_in_range_witness :
  let d := {| TensorDatasetWithTrans.tensors := [[10; 20; 30]; [1; 2; 3]];
              TensorDatasetWithTrans.transform := None |} in
  (TensorDatasetWithTrans.init [[10; 20; 30]; [1; 2; 3]] None = Return d /\
   -3 <= -1 < 3) /\
  TensorDatasetWithTrans.len d = Return 3 /\
  exists x y,
    py_index [10; 20; 30] (-1) = Return x /\
    py_index [1; 2; 3] (-1) = Return y /\
    TensorDatasetWithTrans.getitem d (-1) = Return (x, y).
Proof.
  intros d. split; [split; [reflexivity | lia]|].
  apply (getitem_in_range [10; 20; 30] [1; 2; 3] [] None d (-1));
    [reflexivity | simpl; lia].
Defined.

(** The marker file of the search ends in a newline, that of the
    evaluation does not. *)
Lemma get_last_checkpoint_keeps_newline_witness :
  (Utils.contains newline "model_0000010.pth" = false /\
   marker_files (Checkpoint.join "out" ["search"; "last_checkpoint"]%string)
   = Return ("model_0000010.pth" ++ newline)%string /\
   Checkpoint.get_last_checkpoint marker_files "out" true
   = Return (Checkpoint.join "out"
               ["search"; ("model_0000010.pth" ++ newline)]%string)) /\
  (Utils.contains newline "model_final.pth" = false /\
   marker_files (Checkpoint.join "out" ["eval"; "last_checkpoint"]%string)
   = Return "model_final.pth"%string /\
   Checkpoint.get_last_checkpoint marker_files "out" false
   = Return (Checkpoint.join "out" ["eval"; "model_final.pth"]%string)).
Proof.
  split; (split; [reflexivity|]); (split; [reflexivity|]).
  - pose proof (get_last_checkpoint_keeps_newline marker_files "out"
                  "model_0000010.pth" "" true eq_refl) as H.
    cbv zeta in H. exact (proj1 H eq_refl).
  - pose proof (get_last_checkpoint_keeps_newline marker_files "out"
                  "model_final.pth" "" false eq_refl) as H.
    cbv zeta in H. exact (proj2 H eq_refl).
Defined.

(** A marker file that holds an absolute path. *)
Lemma get_last_checkpoint_absolute_name_witness :
  (marker_files (Checkpoint.join "run" ["search"; "last_checkpoint"]%string)
   = Return "/ckpt/model.pth"%string /\
   Checkpoint.starts_with_slash "/ckpt/model.pth" = true) /\
  Checkpoint.get_last_checkpoint marker_files "run" true
  = Return (Checkpoint.readline "/ckpt/model.pth").
Proof.
  split; [split; reflexivity|].
  apply (get_last_checkpoint_absolute_name marker_files "run" "/ckpt/model.pth" true);
    reflexivity.
Defined.

(** Two statistics logged into an empty group with weight 4. *)
Lemma group_update_effect_witness :
  let data := [("loss", 1 # 2); ("acc", 9 # 10)]%string in
  (1 <= 4 /\
   Forall (fun e => 0 <= NamedAverageMeter.count (snd e))
     (AverageMeterGroup.meters AverageMeterGroup.init) /\
   NoDup (map fst data)) /\
  exists g',
    AverageMeterGroup.update AverageMeterGroup.init data 4 = (Return VNone, g') /\
    (forall k v, In (k, v) data ->
       AverageMeterGroup.od_get k (AverageMeterGroup.meters g')
       = Some (NamedAverageMeter.update
                 (match AverageMeterGroup.od_get k
                          (AverageMeterGroup.meters AverageMeterGroup.init) with
                  | Some m => m
                  | None => NamedAverageMeter.init k ":4f"
                  end) v 4).2) /\
    (forall k, ~ In k (map fst data) ->
       AverageMeterGroup.od_get k (AverageMeterGroup.meters g')
       = AverageMeterGroup.od_get k (AverageMeterGroup.meters AverageMeterGroup.init)).
Proof.
  intros data.
  assert (NoDup (map fst data)) as Hdup.
  { apply (bool_decide_unpack _). vm_compute. exact I. }
  assert (Forall (fun e => 0 <= NamedAverageMeter.count (snd e))
            (AverageMeterGroup.meters AverageMeterGroup.init)) as Hall
    by constructor.
  split; [split; [lia | split; assumption]|].
  apply (group_update_effect data AverageMeterGroup.init 4); [lia | exact Hall | exact Hdup].
Defined.

(** Two calls on an empty group, with weights 4 and 2. *)
Lemma group_invariant_witness :
  let calls := [([("loss", 1 # 2); ("acc", 9 # 10)]%string, 4);
                ([("acc", 1 # 1); ("lr", 1 # 100)]%string, 2)] in
  Forall (fun c : list (string * Q) * Z => 1 <= snd c) calls /\
  exists g,
    AverageMeterGroup.updates AverageMeterGroup.init calls = (Return VNone, g) /\
    Forall AverageMeterGroup.meter_ok (AverageMeterGroup.meters g) /\
    NoDup (map fst (AverageMeterGroup.meters g)).
Proof.
  intros calls.
  assert (Forall (fun c : list (string * Q) * Z => 1 <= snd c) calls) as Hall.
  { repeat constructor; simpl; lia. }
  split; [exact Hall|]. apply (group_invariant calls Hall).
Defined.

(** A hole of length 2 around the corner pixel [(0, 3)] of a 4-by-4
    image. *)
Lemma cutout_zeroes_square_witness :
  let self := {| Cutout.length := 2; Cutout.prob := 1 |} in
  (1 <> 0 /\ 0 < Cutout.height white_image /\ 0 < Cutout.width white_image) /\
  exists img',
    Cutout.call self 1 0 3 white_image = Return img' /\
    Cutout.channels img' = Cutout.channels white_image /\
    Cutout.height img' = Cutout.height white_image /\
    Cutout.width img' = Cutout.width white_image /\
    forall c i j,
      0 <= i < Cutout.height white_image -> 0 <= j < Cutout.width white_image ->
      (Cutout.pixel img' c i j ==
       if (0 - Cutout.length self / 2 <=? i) && (i <? 0 + Cutout.length self / 2)
          && (3 - Cutout.length self / 2 <=? j) && (j <? 3 + Cutout.length self / 2)
       then 0 else Cutout.pixel white_image c i j)%Q.
Proof.
  intros self. split; [simpl; lia|].
  apply (cutout_zeroes_square self 1 0 3 white_image); simpl; lia.
Defined.

(** A hole of length 1 drawn in the middle of the image. *)
Lemma cutout_short_length_is_identity_witness :
  let self := {| Cutout.length := 1; Cutout.prob := 1 |} in
  Cutout.length self <= 1 /\
  match Cutout.call self 1 2 2 white_image with
  | Return img' =>
      Cutout.channels img' = Cutout.channels white_image /\
      Cutout.height img' = Cutout.height white_image /\
      Cutout.width img' = Cutout.width white_image /\
      forall c i j,
        0 <= i < Cutout.height white_image -> 0 <= j < Cutout.width white_image ->
        (Cutout.pixel img' c i j == Cutout.pixel white_image c i j)%Q
  | Raise _ => False
  end.
Proof.
  intros self. split; [simpl; lia|].
  destruct (Cutout.call self 1 2 2 white_image) as [img'|e] eqn:Hcall.
  - apply (cutout_short_length_is_identity self 1 2 2 white_image img');
      [simpl; lia | exact Hcall].
  - vm_compute in Hcall. discriminate.
Defined.


(** Two examples in three folds. *)
Lemma generate_kfold_more_folds_than_examples_witness :
  (0 <= 2 < 3 /\ 2 <= 3) /\
  generate_kfold 2 3
  = Return (replicate (Z.to_nat (3 - 1)) (range 2, []) ++ [([], range 2)]).
Proof.
  split; [lia|]. apply (generate_kfold_more_folds_than_examples 2 3); lia.
Defined.

(** Seven examples in three folds. *)
Lemma generate_kfold_each_index_once_witness :
  (0 <= 7 /\ 2 <= 3) /\
  exists kfold_indices,
    generate_kfold 7 3 = Return kfold_indices /\
    forall tr va, In (tr, va) kfold_indices ->
      Permutation (tr ++ va) (range 7) /\ NoDup (tr ++ va).
Proof.
  split; [lia|]. apply (generate_kfold_each_index_once 7 3); lia.
Defined.

(** The metric name "r2" on one split and on none. *)
Lemma cross_validation_unknown_metric_raises_witness :
  ~ In "r2"%string
      ["pearson"; "mae"; "rmse"; "spearman"; "kendalltau"; "kt_2dec"; "kt_1dec"]%string /\
  (exists e,
     cross_validation sum_toolkit [1; 2; 3] [10; 20; 30] [] [([0; 1], [2])] "r2"
     = Raise e) /\
  cross_validation sum_toolkit [1; 2; 3] [10; 20; 30] [] [([0; 1], [2])] "r2"
  = Raise (UnboundLocalError "score_i") /\
  cross_validation sum_toolkit [1; 2; 3] [10; 20; 30] [] [] "r2"
  = (m ← np_mean sum_toolkit []; Return (m, [])).
Proof.
  assert (~ In "r2"%string
            ["pearson"; "mae"; "rmse"; "spearman"; "kendalltau"; "kt_2dec";
             "kt_1dec"]%string) as Hnot.
  { simpl. intros H. repeat (destruct H as [H|H]; [discriminate|]). exact H. }
  split; [exact Hnot|].
  destruct (cross_validation_unknown_metric_raises sum_toolkit [1; 2; 3]
              [10; 20; 30] [] "r2" [0; 1] [2] [] Hnot) as (Hraise & Hgood & Hnone).
  split; [exact Hraise|]. split; [|exact Hnone].
  apply (Hgood [1; 2] [10; 20] [10; 20] [30; 30] [30; 30]); reflexivity.
Defined.



(** Three targets and three predictions, top 10. *)
Lemma precision_is_a_fraction_witness :
  (0 < 10 /\
   Scores.precision [3 # 1; 1 # 1; 2 # 1] [5 # 1; 4 # 1; 6 # 1] 10
   = Return (inject_Z 2 / inject_Z 10)%Q) /\
  (0 <= inject_Z 2 / inject_Z 10 <= 1)%Q.
Proof.
  split; [split; [lia | reflexivity]|].
  apply (precision_is_a_fraction [3 # 1; 1 # 1; 2 # 1] [5 # 1; 4 # 1; 6 # 1] 10);
    [lia | reflexivity].
Defined.

(** The same three targets and predictions: the precision is there. *)
Lemma precision_is_computed_witness :
  (0 <= 10 /\
   length [3 # 1; 1 # 1; 2 # 1] = length [5 # 1; 4 # 1; 6 # 1] /\
   [3 # 1; 1 # 1; 2 # 1] <> @nil Q) /\
  exists p, Scores.precision [3 # 1; 1 # 1; 2 # 1] [5 # 1; 4 # 1; 6 # 1] 10 = Return p.
Proof.
  split; [split; [lia | split; [reflexivity | discriminate]]|].
  apply (precision_is_computed [3 # 1; 1 # 1; 2 # 1] [5 # 1; 4 # 1; 6 # 1] 10);
    [lia | reflexivity | discriminate].
Defined.

End MoreWitnesses.
